(** * Dynamic Ad-Recommender Chatbot: a shallow embedding of
      [src/ad_recommender.py] and the properties of its orchestration logic.

    The embedding follows the Python source function by function:
    [_stream_chat], [AdRecommender._judge_topic],
    [AdRecommender._shopping_search] and [AdRecommender.chat].  The two
    external services (the text-generation service and the shopping-search
    service) are parameters of the development; every call made to them is
    recorded in a trace, so that "the judge was consulted" and "the lookup was
    invoked" are observable facts about a run.

    Debug printing ([DEBUG], [print]) has no effect on the returned values or
    on the object state and is left out. *)

From Stdlib Require Import List ZArith NArith QArith Lia Bool Ascii String.
From Stdlib Require DecimalString.
Import ListNotations.

Local Open Scope Z_scope.

(** ** Python strings

    A Python [str] is a sequence of Unicode code points; [len] counts code
    points.  The ellipsis U+2026 appended by [_shopping_search] is one
    character, so bytes would not do. *)

Module PyStr.

Definition char := N.
Definition str := list char.

(** A literal of the source, written with Rocq's string notation (ASCII). *)
Definition lit (s : string) : str :=
  List.map N_of_ascii (list_ascii_of_string s).

Definition eqb (a b : str) : bool :=
  if list_eq_dec N.eq_dec a b then true else false.

(** [str.isspace] on one character (CPython's [_PyUnicode_IsWhitespace]). *)
Definition is_space (c : char) : bool :=
  ((9 <=? c) && (c <=? 13) || (28 <=? c) && (c <=? 32)
   || (c =? 133) || (c =? 160) || (c =? 5760)
   || (8192 <=? c) && (c <=? 8202)
   || (c =? 8232) || (c =? 8233) || (c =? 8239) || (c =? 8287)
   || (c =? 12288))%N.

(** Line boundaries of [str.splitlines] (CPython's [_PyUnicode_IsLinebreak]). *)
Definition is_linebreak (c : char) : bool :=
  ((10 <=? c) && (c <=? 13) || (28 <=? c) && (c <=? 30)
   || (c =? 133) || (c =? 8232) || (c =? 8233))%N.

(** [str.lower] on one character.  ASCII and Latin-1 letters are mapped as
    Python maps them; the case table of the code points above U+00FF is not
    reproduced and those characters are left as they are. *)
Definition lower_char (c : char) : char :=
  (if (65 <=? c) && (c <=? 90) then c + 32
   else if (192 <=? c) && (c <=? 222) && negb (c =? 215) then c + 32
   else c)%N.

Definition lower (s : str) : str := List.map lower_char s.

Fixpoint lstrip (s : str) : str :=
  match s with
  | c :: s' => if is_space c then lstrip s' else s
  | [] => []
  end.

Definition rstrip (s : str) : str := rev (lstrip (rev s)).

(** [s.strip()] *)
Definition strip (s : str) : str := rstrip (lstrip s).

Fixpoint startswith (s pre : str) {struct pre} : bool :=
  match pre, s with
  | [], _ => true
  | p :: pre', c :: s' => (p =? c)%N && startswith s' pre'
  | _ :: _, [] => false
  end.

(** [s.endswith(suf)] *)
Definition endswith (s suf : str) : bool := startswith (rev s) (rev suf).

(** [sep.join(parts)] *)
Fixpoint join (sep : str) (parts : list str) : str :=
  match parts with
  | [] => []
  | [p] => p
  | p :: rest => p ++ sep ++ join sep rest
  end.

(** [s.splitlines()]: [cur] is the line being read, in reverse. *)
Fixpoint splitlines_from (cur : str) (s : str) : list str :=
  match s with
  | [] => match cur with [] => [] | _ => [rev cur] end
  | c :: s' =>
      if is_linebreak c then
        match s' with
        | c' :: s'' =>
            if ((c =? 13) && (c' =? 10))%N
            then rev cur :: splitlines_from [] s''
            else rev cur :: splitlines_from [] s'
        | [] => [rev cur]
        end
      else splitlines_from (c :: cur) s'
  end.

Definition splitlines (s : str) : list str := splitlines_from [] s.

(** [s.split(sep, 1)] for a one-character separator: the text before the
    first separator and the text after it, or the whole text alone. *)
Fixpoint split_once (sep : char) (s : str) : list str :=
  match s with
  | [] => [[]]
  | c :: s' =>
      if (c =? sep)%N then [[]; s']
      else match split_once sep s' with
           | before :: more => (c :: before) :: more
           | [] => [[c]]
           end
  end.

(** [l[-n:]] for a positive [n]: the last [n] items, or all of them. *)
Definition last_items {A} (n : nat) (l : list A) : list A :=
  skipn (List.length l - n) l.

End PyStr.

Import PyStr.

(** ** Exceptions and results *)

Inductive exc : Type :=
| IndexError
| KeyError
| TypeError
| AttributeError
| ProviderError (code : N).

Inductive result (A : Type) : Type :=
| Returned (a : A)
| Raised (e : exc).

Arguments Returned {A} a.
Arguments Raised {A} e.

(** ** Verdict parsing of [_judge_topic] (source lines 90-94) *)

(** [lines[i].split(":", 1)[1].strip()] *)
Definition field_after_colon (line : str) : result str :=
  match nth_error (split_once 58%N line) 1 with
  | Some v => Returned (strip v)
  | None => Raised IndexError
  end.

Definition parse_verdict (raw : str) : result (bool * str * str) :=
  let lines := splitlines raw in
  let related :=
    match lines with
    | l0 :: _ => endswith (lower (strip l0)) (lit "yes")
    | [] => false
    end in
  match (match nth_error lines 1 with
         | Some l1 => field_after_colon l1
         | None => Returned (lit "None")
         end) with
  | Raised e => Raised e
  | Returned topic =>
      match (match nth_error lines 2 with
             | Some l2 => field_after_colon l2
             | None => Returned (lit "None")
             end) with
      | Raised e => Raised e
      | Returned ps => Returned (related, topic, ps)
      end
  end.

(** ** Data exchanged with the external services *)

Inductive role : Type := System | User | Assistant.

(** The arguments of [openai_client.chat.completions.create]; the model name
    and [stream=True] are the same in every call. *)
Record request : Type := {
  messages : list (role * str);
  temperature : Q;
  max_tokens : Z
}.

(** The value returned by [GoogleSearch(params).get_dict()]: decoded JSON.
    A number is an integer or a finite float. *)
#[warnings="-register-all"]
Inductive json : Type :=
| JNull
| JBool (b : bool)
| JNum (q : Q)
| JStr (s : str)
| JList (items : list json)
| JObj (fields : list (str * json)).

(** One call to an external service, with what it answered.  A streamed
    completion is the list of its chunks' [delta.content], each a string or
    [None]. *)
Inductive call : Type :=
| LLMCall (req : request) (res : result (list (option str)))
| SerpCall (params : list (str * str)) (res : result json).

(** The dictionary returned by [_shopping_search]. *)
Record product : Type := {
  name : json;
  link : json;
  desc : str
}.

(** ** Configuration (source lines 26-29, 64-65) *)

Definition GPT_MAX_TOKENS : Z := 800.
Definition MAX_BUFFER_SIZE : nat := 100.
Definition TRIGGER_QS : Z := 4.
Definition SNAPSHOT_LINES : nat := 7.

Definition ELLIPSIS : char := 8230%N.

(** ** Python operations on decoded JSON *)

(** Truth value of a Python object. *)
Definition truthy (v : json) : bool :=
  match v with
  | JNull => false
  | JBool b => b
  | JNum q => negb (Qeq_bool q 0)
  | JStr s => match s with [] => false | _ => true end
  | JList l => match l with [] => false | _ => true end
  | JObj f => match f with [] => false | _ => true end
  end.

(** [a or b] *)
Definition py_or (a b : json) : json := if truthy a then a else b.

Fixpoint lookup (key : str) (fields : list (str * json)) : option json :=
  match fields with
  | [] => None
  | (k, v) :: rest => if eqb k key then Some v else lookup key rest
  end.

(** [v.get(key, default)]: only a dict has the method. *)
Definition dict_get (v : json) (key : str) (default : json) : result json :=
  match v with
  | JObj fields =>
      Returned (match lookup key fields with Some x => x | None => default end)
  | _ => Raised AttributeError
  end.

(** [v[0]] *)
Definition subscript0 (v : json) : result json :=
  match v with
  | JList (x :: _) => Returned x
  | JList [] => Raised IndexError
  | JStr (c :: _) => Returned (JStr [c])
  | JStr [] => Raised IndexError
  | JObj _ => Raised KeyError
  | _ => Raised TypeError
  end.

(** [v[:160] + "…"]: a string gives a string; a list cannot be added to a
    string and nothing else can be sliced. *)
Definition slice_plus_ellipsis (v : json) : result str :=
  match v with
  | JStr s => Returned (firstn 160 s ++ [ELLIPSIS])
  | _ => Raised TypeError
  end.

(** [(results.get("shopping_results") or [{}])[0]] *)
Definition first_item (results : json) : result json :=
  match dict_get results (lit "shopping_results") JNull with
  | Raised e => Raised e
  | Returned sr => subscript0 (py_or sr (JList [JObj []]))
  end.

(** [item.get("link") or item.get("product_link") or ""] *)
Definition usable_link (item : json) : result json :=
  match dict_get item (lit "link") JNull with
  | Raised e => Raised e
  | Returned l1 =>
      match dict_get item (lit "product_link") JNull with
      | Raised e => Raised e
      | Returned l2 => Returned (py_or l1 (py_or l2 (JStr [])))
      end
  end.

(** [item.get("snippet") or item.get("description") or ""] *)
Definition description_source (item : json) : result json :=
  match dict_get item (lit "snippet") JNull with
  | Raised e => Raised e
  | Returned sn =>
      match dict_get item (lit "description") JNull with
      | Raised e => Raised e
      | Returned de => Returned (py_or sn (py_or de (JStr [])))
      end
  end.

(** The body of the [try] block of [_shopping_search] once the provider has
    answered (source lines 112-120). *)
Definition normalize_result (results : json) : result (option product) :=
  match first_item results with
  | Raised e => Raised e
  | Returned item =>
  match usable_link item with
  | Raised e => Raised e
  | Returned lnk =>
      if negb (truthy lnk) then Returned None
      else
        match dict_get item (lit "title") (JStr []) with
        | Raised e => Raised e
        | Returned title =>
        match description_source item with
        | Raised e => Raised e
        | Returned src =>
        match slice_plus_ellipsis src with
        | Raised e => Raised e
        | Returned d =>
            Returned (Some {| name := title; link := lnk; desc := d |})
        end end end
  end end.

(** [try: ... except Exception: return None] *)
Definition search_outcome (res : result json) : option product :=
  match res with
  | Raised _ => None
  | Returned results =>
      match normalize_result results with
      | Raised _ => None
      | Returned p => p
      end
  end.

(** ** Fixed texts of the source *)

(** [sys_msg] of [_judge_topic] (source lines 73-79). *)
Definition judge_sys_msg : str :=
  lit "Determine whether the last 4 Q&A pairs share one topic and suggest a product or service.

If yes, respond exactly:
RELATED: yes
TOPIC: <topic>
P/S: <product>

Else respond exactly:
RELATED: no
TOPIC: None
P/S: None".

(** The system message of the main reply (source lines 148-152). *)
Definition assistant_sys_msg : str :=
  lit "You are a helpful AI assistant. Format responses using markdown: **bold** for emphasis, *italic* for subtle emphasis, `code` for terms, and lists. Preserve any links exactly as provided.".

Definition NL : str := [10%N].

(** ** What is observed of a run *)

(** A request of the judge is known by its system message. *)
Definition is_judge_request (req : request) : bool :=
  match messages req with
  | (System, s) :: _ => eqb s judge_sys_msg
  | _ => false
  end.

Definition is_judge_call (c : call) : bool :=
  match c with
  | LLMCall req _ => is_judge_request req
  | SerpCall _ _ => false
  end.

Definition is_lookup_call (c : call) : bool :=
  match c with
  | SerpCall _ _ => true
  | LLMCall _ _ => false
  end.

(** The trigger evaluation took place: the judge was asked. *)
Definition judge_consulted (calls : list call) : bool :=
  existsb is_judge_call calls.

Definition lookup_invoked (calls : list call) : bool :=
  existsb is_lookup_call calls.

(** The role of a buffer line is its marker. *)
Definition is_user_line (l : str) : bool := startswith l (lit "Q: ").
Definition is_assistant_line (l : str) : bool := startswith l (lit "A: ").

(** Lines at even indices are the user's, lines at odd indices are the
    assistant's. *)
Fixpoint roles_by_parity (b : list str) : bool :=
  match b with
  | [] => true
  | [q] => is_user_line q
  | q :: a :: rest =>
      is_user_line q && is_assistant_line a && roles_by_parity rest
  end.

(** Read from the newest line backwards, the roles alternate; [user_last]
    says whose line the newest one is. *)
Fixpoint alternates_back (user_last : bool) (rb : list str) : bool :=
  match rb with
  | [] => true
  | l :: rb' =>
      (if user_last then is_user_line l else is_assistant_line l)
      && alternates_back (negb user_last) rb'
  end.

(** What the question counter can be after [k] calls: the count modulo the
    trigger period, or a value the trigger test has been passed with. *)
Definition counter_tracks (k : nat) (n : Z) : Prop :=
  n = Z.of_nat k mod TRIGGER_QS \/ TRIGGER_QS <= n.

(** The buffer as a conversation without failed calls leaves it: the newest
    line is the assistant's, roles alternate backwards from it, and the
    questions counted since the last trigger evaluation are all there with
    their answers. *)
Definition steady (b : list str) (n : Z) : Prop :=
  0 <= n < TRIGGER_QS
  /\ 2 * n <= Z.of_nat (List.length b)
  /\ alternates_back false (rev b) = true.

Definition returned {A} (r : result A) : bool :=
  match r with
  | Returned _ => true
  | Raised _ => false
  end.

(** ** Provider responses as the interface describes them

    A response of the shopping-search service is an error or a result set of
    zero or more entries, each with optional title, link, product link,
    snippet and description texts. *)

Definition optional_text (key : string) (fields : list (str * json)) : bool :=
  match lookup (lit key) fields with
  | None => true
  | Some (JStr _) => true
  | Some _ => false
  end.

Definition is_listing (item : json) : bool :=
  match item with
  | JObj f =>
      optional_text "title" f && optional_text "link" f
      && optional_text "product_link" f && optional_text "snippet" f
      && optional_text "description" f
  | _ => false
  end.

(** The entries of an answer; an answer without the key has none. *)
Definition result_set (res : result json) : option (list json) :=
  match res with
  | Returned (JObj f) =>
      match lookup (lit "shopping_results") f with
      | None => Some []
      | Some (JList items) => Some items
      | Some _ => None
      end
  | _ => None
  end.

Definition expected_response (res : result json) : bool :=
  match res with
  | Raised _ => true
  | Returned _ =>
      match result_set res with
      | Some items => forallb is_listing items
      | None => false
      end
  end.

Definition provider_erred (res : result json) : bool := negb (returned res).

Definition no_entries (res : result json) : bool :=
  match result_set res with
  | Some [] => true
  | _ => false
  end.

(** The entry has a non-empty text under [key]. *)
Definition has_text (key : string) (item : json) : bool :=
  match item with
  | JObj f =>
      match lookup (lit key) f with
      | Some (JStr (_ :: _)) => true
      | _ => false
      end
  | _ => false
  end.

Definition first_entry_without_link (res : result json) : bool :=
  match result_set res with
  | Some (item :: _) =>
      negb (has_text "link" item) && negb (has_text "product_link" item)
  | _ => false
  end.

(** A Product Record: a name, a non-empty link, and a description of at most
    160 characters followed by the ellipsis. *)
Definition well_formed_product (p : product) : Prop :=
  exists n l d,
    name p = JStr n /\ link p = JStr l /\ l <> []
    /\ desc p = d ++ [ELLIPSIS] /\ (List.length d <= 160)%nat.

(** ** Further notions used to state what the code does *)

(** The text a streamed fragment carries ([None] carries none). *)
Definition fragment_text (c : option str) : str :=
  match c with
  | Some s => s
  | None => []
  end.

(** A text without line boundaries. *)
Definition single_line (s : str) : Prop :=
  forall c, In c s -> is_linebreak c = false.

(** An answer in the format the judge's system message asks for. *)
Definition verdict_text (related : bool) (topic ps : str) : str :=
  lit "RELATED: " ++ (if related then lit "yes" else lit "no") ++ NL
  ++ lit "TOPIC:" ++ topic ++ NL ++ lit "P/S:" ++ ps.

(** What the console delivers to [input]: a typed line, or an interrupt
    ([KeyboardInterrupt]).  The end of the list is the end of the input
    ([EOFError]). *)
Inductive console_event : Type :=
| Typed (line : str)
| Interrupted.

(** How [main] ends: its loop is left, or an exception of [chat] leaves
    [main] uncaught. *)
Inductive exit_status : Type :=
| Ended
| Crashed (e : exc).

(** [user_input.lower() == "quit"] *)
Definition is_quit (user_input : str) : bool :=
  eqb (lower user_input) (lit "quit").

(** What [print("\nAI:", answer)] writes. *)
Definition ai_line (answer : str) : str :=
  NL ++ lit "AI: " ++ answer ++ NL.

(** The questions a console session puts to the orchestrator: the typed
    lines, stripped, up to the first "quit", interrupt or end of input. *)
Fixpoint session_questions (events : list console_event) : list str :=
  match events with
  | Typed line :: rest =>
      if is_quit (strip line) then []
      else strip line :: session_questions rest
  | _ => []
  end.

(** ** A scripted world

    A world that answers from a script: each call to a service consumes the
    next reply; a reply meant for the other service, or an exhausted script,
    is a provider error. *)

Module Scripted.

Inductive reply : Type :=
| LLM (r : result (list (option str)))
| Serp (r : result json).

Definition world : Type := list reply.

Definition openai_create (_ : request) (w : world)
  : result (list (option str)) * world :=
  match w with
  | LLM r :: w' => (r, w')
  | _ :: w' => (Raised (ProviderError 0), w')
  | [] => (Raised (ProviderError 0), [])
  end.

Definition serp_get_dict (_ : list (str * str)) (w : world)
  : result json * world :=
  match w with
  | Serp r :: w' => (r, w')
  | _ :: w' => (Raised (ProviderError 0), w')
  | [] => (Raised (ProviderError 0), [])
  end.

(** The completion that streams [s] in one fragment. *)
Definition says (s : string) : reply := LLM (Returned [Some (lit s)]).

(** A failed completion. *)
Definition llm_down : reply := LLM (Raised (ProviderError 503)).

Definition api_key : str := lit "key".

(** Python's [str] of the values an f-string can meet in a title or a link
    besides a text: [None], [True] and [False], and the integers, in decimal.
    The numbers of the model do not tell the float [5.0] from the integer [5],
    and Python's [repr] of floats, lists and dicts is not reproduced: a number
    that is not an integer, a list and a dict are rendered as the empty text.
    No script of this file carries one of these in a title or a link. *)
Definition format_other (v : json) : str :=
  match v with
  | JNull => lit "None"
  | JBool true => lit "True"
  | JBool false => lit "False"
  | JNum q =>
      if (Qnum q mod Z.pos (Qden q) =? 0)%Z
      then lit (DecimalString.NilZero.string_of_int
                  (Z.to_int (Qnum q / Z.pos (Qden q))))
      else []
  | JStr s => s
  | JList _ => []
  | JObj _ => []
  end.

End Scripted.

(** ** The orchestrator *)

Section Orchestrator.

(** The outside world: its state, and how the two services answer a call in
    a given state. *)
Variable W : Type.
Variable openai_create : request -> W -> result (list (option str)) * W.
Variable serp_get_dict : list (str * str) -> W -> result json * W.

(** The credential read from the environment at start-up. *)
Variable SERPAPI_KEY : str.

(** How an f-string renders a value that is not a string ([None], a number,
    a list: Python's [format]).  A string is rendered as itself. *)
Variable format_other : json -> str.

Definition format_value (v : json) : str :=
  match v with
  | JStr s => s
  | _ => format_other v
  end.

(** The [AdRecommender] object ([buffer], [msg_cnt]), the world, and the
    calls made so far. *)
Record machine : Type := {
  buffer : list str;
  msg_cnt : Z;
  world : W;
  trace : list call
}.

(** A method body: it reads and writes the machine and returns or raises.
    What was written before an exception stays written. *)
Definition M (A : Type) : Type := machine -> result A * machine.

Definition ret {A} (a : A) : M A := fun m => (Returned a, m).

Definition bind {A B} (c : M A) (k : A -> M B) : M B :=
  fun m =>
    match c m with
    | (Returned a, m') => k a m'
    | (Raised e, m') => (Raised e, m')
    end.

Definition lift {A} (r : result A) : M A := fun m => (r, m).

Notation "x <- c ;; k" := (bind c (fun x => k))
  (at level 61, c at next level, right associativity).
Notation "c ;; k" := (bind c (fun _ => k))
  (at level 61, right associativity).

Definition get_buffer : M (list str) := fun m => (Returned (buffer m), m).
Definition set_buffer (b : list str) : M unit :=
  fun m => (Returned tt,
            {| buffer := b; msg_cnt := msg_cnt m;
               world := world m; trace := trace m |}).
Definition get_msg_cnt : M Z := fun m => (Returned (msg_cnt m), m).
Definition set_msg_cnt (n : Z) : M unit :=
  fun m => (Returned tt,
            {| buffer := buffer m; msg_cnt := n;
               world := world m; trace := trace m |}).

(** [self.buffer.append(line)] *)
Definition buffer_append (line : str) : M unit :=
  b <- get_buffer ;; set_buffer (b ++ [line]).

(** The streamed fragments that are kept: [if chunk.choices[0].delta.content]. *)
Fixpoint kept_parts (chunks : list (option str)) : list str :=
  match chunks with
  | [] => []
  | Some (c :: s) :: rest => (c :: s) :: kept_parts rest
  | _ :: rest => kept_parts rest
  end.

(** ["".join(parts).strip()] *)
Definition assemble (chunks : list (option str)) : str :=
  strip (join [] (kept_parts chunks)).

(** [_stream_chat] (source lines 44-57). *)
Definition _stream_chat (msgs : list (role * str)) (temp : Q) (maxtok : Z)
  : M str :=
  fun m =>
    let req := {| messages := msgs; temperature := temp;
                  max_tokens := maxtok |} in
    let (res, w') := openai_create req (world m) in
    let m' := {| buffer := buffer m; msg_cnt := msg_cnt m; world := w';
                 trace := trace m ++ [LLMCall req res] |} in
    match res with
    | Returned chunks => (Returned (assemble chunks), m')
    | Raised e => (Raised e, m')
    end.

Definition judge_messages (snapshot : str) : list (role * str) :=
  [(System, judge_sys_msg); (User, snapshot ++ lit "
RELATED:")].

(** [_judge_topic] (source lines 72-94). *)
Definition _judge_topic (snapshot : str) : M (bool * str * str) :=
  raw <- _stream_chat (judge_messages snapshot) (2 # 10) 256 ;;
  lift (parse_verdict raw).

Definition search_params (query : str) : list (str * str) :=
  [ (lit "engine", lit "google_shopping");
    (lit "q", query);
    (lit "gl", lit "us");
    (lit "hl", lit "en");
    (lit "num", lit "10");
    (lit "direct_link", lit "1");
    (lit "tbs", lit "vw:l");
    (lit "api_key", SERPAPI_KEY) ].

(** [_shopping_search] (source lines 97-124). *)
Definition _shopping_search (query : str) : M (option product) :=
  fun m =>
    let params := search_params query in
    let (res, w') := serp_get_dict params (world m) in
    (Returned (search_outcome res),
     {| buffer := buffer m; msg_cnt := msg_cnt m; world := w';
        trace := trace m ++ [SerpCall params res] |}).

(** The loop of source lines 135-141: the buffer read two lines at a time,
    the first as the user's, the second as the assistant's, each without its
    three-character marker; a last line without a successor is skipped. *)
Fixpoint context_pairs (b : list str) : list (role * str) :=
  match b with
  | q :: a :: rest =>
      (User, skipn 3 q) :: (Assistant, skipn 3 a) :: context_pairs rest
  | _ => []
  end.

(** The recommendation suffix (source lines 165-168). *)
Definition recommendation (topic : str) (p : product) : str :=
  [10; 10; 9654; 32]%N ++ lit "Because you've been talking about **"
  ++ topic ++ lit "**, you might like: [" ++ format_value (name p)
  ++ lit "](" ++ format_value (link p) ++ lit ") " ++ [8212; 32]%N
  ++ desc p.

(** Source lines 159-170: the body of [if self.msg_cnt == self.TRIGGER_QS]. *)
Definition trigger_evaluation (answer : str) : M str :=
  b <- get_buffer ;;
  let snapshot := join NL (last_items SNAPSHOT_LINES b) in
  v <- _judge_topic snapshot ;;
  let '(related, topic, ps) := v in
  answer' <-
    (if related && negb (eqb (lower ps) (lit "none")) then
       p <- _shopping_search ps ;;
       match p with
       | Some prod => ret (answer ++ recommendation topic prod)
       | None => ret answer
       end
     else ret answer) ;;
  set_msg_cnt 0 ;;
  ret answer'.

(** [AdRecommender.chat] (source lines 127-174). *)
Definition chat (user_msg : str) : M str :=
  buffer_append (lit "Q: " ++ user_msg) ;;
  n <- get_msg_cnt ;;
  set_msg_cnt (n + 1) ;;
  b <- get_buffer ;;
  (if (MAX_BUFFER_SIZE <? List.length b)%nat
   then set_buffer (last_items MAX_BUFFER_SIZE b)
   else ret tt) ;;
  b <- get_buffer ;;
  let ctx := context_pairs b ++ [(User, user_msg)] in
  answer <- _stream_chat ((System, assistant_sys_msg) :: ctx)
                         (7 # 10) GPT_MAX_TOKENS ;;
  n <- get_msg_cnt ;;
  answer <- (if n =? TRIGGER_QS then trigger_evaluation answer
             else ret answer) ;;
  buffer_append (lit "A: " ++ answer) ;;
  ret answer.

(** [AdRecommender()] in a given world. *)
Definition init (w : W) : machine :=
  {| buffer := []; msg_cnt := 0; world := w; trace := [] |}.

(** One call of a conversation.  The trace is emptied first, so that the
    machine after the call holds the calls of this turn only. *)
Definition turn (user_msg : str) (m : machine) : result str * machine :=
  chat user_msg {| buffer := buffer m; msg_cnt := msg_cnt m;
                   world := world m; trace := [] |}.

(** A conversation: one [chat] call per message, by a caller that goes on
    after a failed call.  For each call, in order: its outcome and the
    machine it leaves. *)
Fixpoint conversation (msgs : list str) (m : machine)
  : list (result str * machine) :=
  match msgs with
  | [] => []
  | u :: rest =>
      let rm := turn u m in
      rm :: conversation rest (snd rm)
  end.

(** The machine at the end of a conversation. *)
Fixpoint final (msgs : list str) (m : machine) : machine :=
  match msgs with
  | [] => m
  | u :: rest => final rest (snd (turn u m))
  end.

(** No call of the conversation raised. *)
Definition all_returned (msgs : list str) (m : machine) : bool :=
  forallb (fun rm => returned (fst rm)) (conversation msgs m).

(** *** The paths through [chat]

    The values [chat] computes on its way, named. *)

Definition question_line (u : str) : str := lit "Q: " ++ u.
Definition answer_line (a : str) : str := lit "A: " ++ a.

Definition trimmed (b : list str) : list str :=
  if (MAX_BUFFER_SIZE <? List.length b)%nat
  then last_items MAX_BUFFER_SIZE b else b.

Definition buffer_after_question (u : str) (b : list str) : list str :=
  trimmed (b ++ [question_line u]).

Definition main_request (u : str) (b : list str) : request :=
  {| messages := (System, assistant_sys_msg)
                 :: context_pairs (buffer_after_question u b) ++ [(User, u)];
     temperature := 7 # 10;
     max_tokens := GPT_MAX_TOKENS |}.

Definition snapshot_of (b1 : list str) : str :=
  join NL (last_items SNAPSHOT_LINES b1).

Definition judge_request (b1 : list str) : request :=
  {| messages := judge_messages (snapshot_of b1);
     temperature := 2 # 10;
     max_tokens := 256 |}.

Definition lookup_wanted (related : bool) (ps : str) : bool :=
  related && negb (eqb (lower ps) (lit "none")).

Definition with_recommendation (answer topic : str) (p : option product)
  : str :=
  match p with
  | Some prod => answer ++ recommendation topic prod
  | None => answer
  end.

(** The loop of [main] (source lines 181-188).  [printed] holds what [main]
    itself has written for the answers so far; the banner, the prompts and
    the debug lines of the orchestrator are not part of it.  Each question is
    one [turn]; an interrupt is taken at the prompt, where the source catches
    it. *)
Fixpoint repl (events : list console_event) (m : machine)
  (printed : list str) : exit_status * machine * list str :=
  match events with
  | [] => (Ended, m, printed)
  | Interrupted :: _ => (Ended, m, printed)
  | Typed line :: rest =>
      let user_input := strip line in
      if is_quit user_input then (Ended, m, printed)
      else
        match turn user_input m with
        | (Returned answer, m') =>
            repl rest m' (printed ++ [ai_line answer])
        | (Raised e, m') => (Crashed e, m', printed)
        end
  end.

(** [main] (source lines 178-188) in a given world. *)
Definition main (events : list console_event) (w : W)
  : exit_status * machine * list str :=
  repl events (init w) [].

(** The exchanges of a conversation: each question with the answer it got;
    a question whose call raised has none. *)
Fixpoint exchanges (msgs : list str) (m : machine) : list (str * str) :=
  match msgs with
  | [] => []
  | u :: rest =>
      match turn u m with
      | (Returned a, m') => (u, a) :: exchanges rest m'
      | (Raised _, m') => exchanges rest m'
      end
  end.

(** The buffer lines and the context messages of a list of exchanges. *)
Fixpoint transcript_lines (hist : list (str * str)) : list str :=
  match hist with
  | [] => []
  | (q, a) :: rest => question_line q :: answer_line a :: transcript_lines rest
  end.

Fixpoint transcript_messages (hist : list (str * str)) : list (role * str) :=
  match hist with
  | [] => []
  | (q, a) :: rest =>
      (User, q) :: (Assistant, a) :: transcript_messages rest
  end.

Inductive chat_path (u : str) (m : machine) : result str -> machine -> Prop :=
| main_failed e w1 :
    openai_create (main_request u (buffer m)) (world m) = (Raised e, w1) ->
    chat_path u m (Raised e)
      {| buffer := buffer_after_question u (buffer m);
         msg_cnt := msg_cnt m + 1; world := w1;
         trace := trace m
                  ++ [LLMCall (main_request u (buffer m)) (Raised e)] |}
| no_trigger ch w1 :
    openai_create (main_request u (buffer m)) (world m) = (Returned ch, w1) ->
    msg_cnt m + 1 <> TRIGGER_QS ->
    chat_path u m (Returned (assemble ch))
      {| buffer := buffer_after_question u (buffer m)
                   ++ [answer_line (assemble ch)];
         msg_cnt := msg_cnt m + 1; world := w1;
         trace := trace m
                  ++ [LLMCall (main_request u (buffer m)) (Returned ch)] |}
| judge_failed ch w1 e w2 :
    openai_create (main_request u (buffer m)) (world m) = (Returned ch, w1) ->
    msg_cnt m + 1 = TRIGGER_QS ->
    openai_create (judge_request (buffer_after_question u (buffer m))) w1
      = (Raised e, w2) ->
    chat_path u m (Raised e)
      {| buffer := buffer_after_question u (buffer m);
         msg_cnt := msg_cnt m + 1; world := w2;
         trace := (trace m
                  ++ [LLMCall (main_request u (buffer m)) (Returned ch)])
                  ++ [LLMCall
                        (judge_request (buffer_after_question u (buffer m)))
                        (Raised e)] |}
| verdict_unreadable ch w1 ch2 w2 e :
    openai_create (main_request u (buffer m)) (world m) = (Returned ch, w1) ->
    msg_cnt m + 1 = TRIGGER_QS ->
    openai_create (judge_request (buffer_after_question u (buffer m))) w1
      = (Returned ch2, w2) ->
    parse_verdict (assemble ch2) = Raised e ->
    chat_path u m (Raised e)
      {| buffer := buffer_after_question u (buffer m);
         msg_cnt := msg_cnt m + 1; world := w2;
         trace := (trace m
                  ++ [LLMCall (main_request u (buffer m)) (Returned ch)])
                  ++ [LLMCall
                        (judge_request (buffer_after_question u (buffer m)))
                        (Returned ch2)] |}
| no_lookup ch w1 ch2 w2 related topic ps :
    openai_create (main_request u (buffer m)) (world m) = (Returned ch, w1) ->
    msg_cnt m + 1 = TRIGGER_QS ->
    openai_create (judge_request (buffer_after_question u (buffer m))) w1
      = (Returned ch2, w2) ->
    parse_verdict (assemble ch2) = Returned (related, topic, ps) ->
    lookup_wanted related ps = false ->
    chat_path u m (Returned (assemble ch))
      {| buffer := buffer_after_question u (buffer m)
                   ++ [answer_line (assemble ch)];
         msg_cnt := 0; world := w2;
         trace := (trace m
                  ++ [LLMCall (main_request u (buffer m)) (Returned ch)])
                  ++ [LLMCall
                        (judge_request (buffer_after_question u (buffer m)))
                        (Returned ch2)] |}
| looked_up ch w1 ch2 w2 related topic ps res w3 :
    openai_create (main_request u (buffer m)) (world m) = (Returned ch, w1) ->
    msg_cnt m + 1 = TRIGGER_QS ->
    openai_create (judge_request (buffer_after_question u (buffer m))) w1
      = (Returned ch2, w2) ->
    parse_verdict (assemble ch2) = Returned (related, topic, ps) ->
    lookup_wanted related ps = true ->
    serp_get_dict (search_params ps) w2 = (res, w3) ->
    chat_path u m
      (Returned (with_recommendation (assemble ch) topic
                   (search_outcome res)))
      {| buffer := buffer_after_question u (buffer m)
                   ++ [answer_line
                         (with_recommendation (assemble ch) topic
                            (search_outcome res))];
         msg_cnt := 0; world := w3;
         trace := ((trace m
                  ++ [LLMCall (main_request u (buffer m)) (Returned ch)])
                  ++ [LLMCall
                        (judge_request (buffer_after_question u (buffer m)))
                        (Returned ch2)])
                  ++ [SerpCall (search_params ps) res] |}.

(** Every call of [chat] takes one of these paths. *)
Lemma chat_paths (u : str) (m : machine) :
  chat_path u m (fst (chat u m)) (snd (chat u m)).
Proof.
  unfold chat, trigger_evaluation, _judge_topic, _shopping_search,
    buffer_append, bind, get_buffer, set_buffer, get_msg_cnt, set_msg_cnt,
    ret, lift, _stream_chat.
  cbn [buffer msg_cnt world trace].
  fold (question_line u).
  assert (Hb : (if (MAX_BUFFER_SIZE <? List.length (buffer m ++ [question_line u]))%nat
                then last_items MAX_BUFFER_SIZE (buffer m ++ [question_line u])
                else buffer m ++ [question_line u])
               = buffer_after_question u (buffer m)) by reflexivity.
  destruct (MAX_BUFFER_SIZE <? List.length (buffer m ++ [question_line u]))%nat;
    cbn [buffer msg_cnt world trace] in *; rewrite Hb; clear Hb.
  all: fold (main_request u (buffer m)).
  all: destruct (openai_create (main_request u (buffer m)) (world m))
         as [[ch|e] w1] eqn:E1; cbn [buffer msg_cnt world trace fst snd].
  all: try (now apply main_failed).
  all: destruct (msg_cnt m + 1 =? TRIGGER_QS) eqn:En;
         cbn [buffer msg_cnt world trace fst snd].
  all: try (apply Z.eqb_neq in En; now apply no_trigger).
  all: apply Z.eqb_eq in En.
  all: fold (snapshot_of (buffer_after_question u (buffer m)));
       fold (judge_request (buffer_after_question u (buffer m))).
  all: destruct (openai_create
                   (judge_request (buffer_after_question u (buffer m))) w1)
         as [[ch2|e] w2] eqn:E2; cbn [buffer msg_cnt world trace fst snd].
  all: try (now apply judge_failed with (w1 := w1)).
  all: destruct (parse_verdict (assemble ch2)) as [[[related topic] ps]|e]
         eqn:Ep; cbn [buffer msg_cnt world trace fst snd].
  all: try (now apply verdict_unreadable with (w1 := w1)).
  all: fold (lookup_wanted related ps);
       destruct (lookup_wanted related ps) eqn:El;
       cbn [buffer msg_cnt world trace fst snd].
  all: try (now apply no_lookup with (w1 := w1) (related := related)
                                     (topic := topic) (ps := ps)).
  all: destruct (serp_get_dict (search_params ps) w2) as [res w3] eqn:E3;
       cbn [buffer msg_cnt world trace fst snd].
  all: destruct (search_outcome res) as [p|] eqn:Eo;
       cbn [buffer msg_cnt world trace fst snd].
  all: fold (answer_line (assemble ch ++ recommendation topic p)) ||
       fold (answer_line (assemble ch)).
  all: pose proof (looked_up u m ch w1 ch2 w2 related topic ps res w3
                     E1 En E2 Ep El E3) as P;
       rewrite Eo in P; exact P.
Qed.


(** *** Lists and strings *)

Lemma eqb_eq (a b : str) : eqb a b = true <-> a = b.
Proof.
  unfold eqb. destruct (list_eq_dec N.eq_dec a b); split; congruence.
Qed.

Lemma eqb_neq (a b : str) : eqb a b = false <-> a <> b.
Proof.
  unfold eqb. destruct (list_eq_dec N.eq_dec a b); split; congruence.
Qed.

Lemma last_items_length {A} (n : nat) (l : list A) :
  List.length (last_items n l) = Nat.min n (List.length l).
Proof. unfold last_items. rewrite length_skipn. lia. Qed.

Lemma last_items_snoc {A} (n : nat) (l : list A) (x : A) :
  (0 < n)%nat -> last_items n (l ++ [x]) = last_items (n - 1) l ++ [x].
Proof.
  intros Hn. unfold last_items. rewrite length_app, skipn_app. cbn [List.length].
  replace (List.length l + 1 - n - List.length l)%nat with 0%nat by lia.
  replace (List.length l + 1 - n)%nat with (List.length l - (n - 1))%nat by lia.
  reflexivity.
Qed.

Lemma trimmed_length (b : list str) :
  (List.length (trimmed b) <= MAX_BUFFER_SIZE)%nat.
Proof.
  unfold trimmed. destruct (MAX_BUFFER_SIZE <? List.length b)%nat eqn:E.
  - rewrite last_items_length. lia.
  - apply Nat.ltb_ge in E. exact E.
Qed.

Lemma trimmed_length_eq (b : list str) :
  List.length (trimmed b) = Nat.min MAX_BUFFER_SIZE (List.length b).
Proof.
  unfold trimmed. destruct (MAX_BUFFER_SIZE <? List.length b)%nat eqn:E.
  - rewrite last_items_length. reflexivity.
  - apply Nat.ltb_ge in E. lia.
Qed.

(** The question just appended survives the trimming, as the newest line. *)
Lemma buffer_after_question_snoc (u : str) (b : list str) :
  exists older, buffer_after_question u b = older ++ [question_line u]
                /\ older = last_items (MAX_BUFFER_SIZE - 1) b.
Proof.
  unfold buffer_after_question, trimmed.
  destruct (MAX_BUFFER_SIZE <? List.length (b ++ [question_line u]))%nat eqn:E.
  - eexists. split; [apply last_items_snoc; unfold MAX_BUFFER_SIZE; lia|].
    reflexivity.
  - apply Nat.ltb_ge in E. rewrite length_app in E. cbn in E.
    exists b. split; [reflexivity|].
    unfold last_items.
    replace (List.length b - (MAX_BUFFER_SIZE - 1))%nat with 0%nat
      by (unfold MAX_BUFFER_SIZE in *; lia).
    reflexivity.
Qed.

Lemma buffer_after_question_length (u : str) (b : list str) :
  List.length (buffer_after_question u b)
  = Nat.min MAX_BUFFER_SIZE (List.length b + 1).
Proof.
  unfold buffer_after_question. rewrite trimmed_length_eq, length_app.
  reflexivity.
Qed.

(** *** Conversations *)

Lemma turn_paths (u : str) (m : machine) :
  chat_path u {| buffer := buffer m; msg_cnt := msg_cnt m;
                 world := world m; trace := [] |}
    (fst (turn u m)) (snd (turn u m)).
Proof. apply chat_paths. Qed.

Lemma final_snoc (pre : list str) (u : str) (m : machine) :
  final (pre ++ [u]) m = snd (turn u (final pre m)).
Proof.
  revert m. induction pre as [|v pre IH]; intros m; cbn; [reflexivity|].
  apply IH.
Qed.

Lemma conversation_snoc (pre : list str) (u : str) (m : machine) :
  conversation (pre ++ [u]) m
  = conversation pre m ++ [turn u (final pre m)].
Proof.
  revert m. induction pre as [|v pre IH]; intros m; cbn; [reflexivity|].
  now rewrite IH.
Qed.

Lemma all_returned_snoc (pre : list str) (u : str) (m : machine) :
  all_returned (pre ++ [u]) m
  = all_returned pre m && returned (fst (turn u (final pre m))).
Proof.
  unfold all_returned. rewrite conversation_snoc, forallb_app. cbn.
  now rewrite andb_true_r.
Qed.

(** An invariant of every call holds at the end of every conversation. *)
Lemma final_invariant (I : machine -> Prop) :
  (forall u m, I m -> I (snd (turn u m))) ->
  forall msgs m, I m -> I (final msgs m).
Proof.
  intros Hstep msgs. induction msgs as [|u rest IH]; intros m Hm; cbn.
  - exact Hm.
  - apply IH, Hstep, Hm.
Qed.

(** An invariant of every call that returns holds at the end of every
    conversation in which no call raised. *)
Lemma final_invariant_returned (I : machine -> Prop) :
  (forall u m, I m -> returned (fst (turn u m)) = true -> I (snd (turn u m))) ->
  forall msgs m, I m -> all_returned msgs m = true -> I (final msgs m).
Proof.
  intros Hstep msgs. induction msgs as [|u rest IH]; intros m Hm Hall; cbn.
  - exact Hm.
  - unfold all_returned in Hall. cbn in Hall.
    apply andb_true_iff in Hall as [H1 H2].
    apply IH; [apply Hstep; assumption | exact H2].
Qed.

(** *** One call, by cases *)

Ltac by_paths u m :=
  let r := fresh "r" in
  let m' := fresh "m'" in
  let E := fresh "Eturn" in
  let P := fresh "P" in
  destruct (turn u m) as [r m'] eqn:E;
  pose proof (turn_paths u m) as P;
  rewrite E in P; cbn [fst snd] in P;
  inversion P; subst; clear P;
  cbn [buffer msg_cnt world trace fst snd app] in *.

Lemma main_request_not_judge (u : str) (b : list str) :
  is_judge_request (main_request u b) = false.
Proof.
  unfold is_judge_request, main_request. cbn [messages].
  now vm_compute.
Qed.

Lemma judge_request_is_judge (b1 : list str) :
  is_judge_request (judge_request b1) = true.
Proof.
  unfold is_judge_request, judge_request, judge_messages. cbn [messages].
  apply eqb_eq. reflexivity.
Qed.

Lemma turn_buffer_bound (u : str) (m : machine) :
  (List.length (buffer (snd (turn u m))) <= MAX_BUFFER_SIZE + 1)%nat.
Proof.
  by_paths u m; rewrite ?length_app, buffer_after_question_length;
    cbn [List.length]; lia.
Qed.

(** The judge is asked only on a call that brings the counter to the trigger
    period. *)
Lemma turn_judge_counter (u : str) (m : machine) :
  judge_consulted (trace (snd (turn u m))) = true ->
  msg_cnt m + 1 = TRIGGER_QS.
Proof.
  by_paths u m; unfold judge_consulted; cbn [existsb is_judge_call];
    rewrite ?main_request_not_judge; cbn; intros Hj;
    solve [discriminate | assumption].
Qed.

(** A call that returns asked the judge exactly when it brought the counter
    to the trigger period, and then it has reset the counter. *)
Lemma turn_returned (u : str) (m : machine) :
  returned (fst (turn u m)) = true ->
  (judge_consulted (trace (snd (turn u m))) = true
     <-> msg_cnt m + 1 = TRIGGER_QS)
  /\ msg_cnt (snd (turn u m))
     = (if msg_cnt m + 1 =? TRIGGER_QS then 0 else msg_cnt m + 1).
Proof.
  by_paths u m; unfold judge_consulted; cbn [existsb is_judge_call returned];
    rewrite ?main_request_not_judge, ?judge_request_is_judge;
    cbn [orb]; intros Hr; try discriminate.
  - apply Z.eqb_neq in H0 as E. rewrite E. split; [|reflexivity].
    split; [discriminate | contradiction].
  - rewrite H0, Z.eqb_refl. now split.
  - rewrite H0, Z.eqb_refl. now split.
Qed.

(** The counter after a call: one more, or zero after a trigger evaluation. *)
Lemma turn_counter (u : str) (m : machine) :
  msg_cnt (snd (turn u m)) = msg_cnt m + 1
  \/ (msg_cnt m + 1 = TRIGGER_QS /\ msg_cnt (snd (turn u m)) = 0).
Proof.
  by_paths u m; auto.
Qed.

Ltac zmod :=
  unfold TRIGGER_QS in *;
  rewrite ?Nat2Z.inj_succ, ?Nat2Z.inj_add in *;
  change (Z.of_nat 1) with 1 in *;
  Z.div_mod_to_equations; lia.

Lemma counter_tracks_step (k : nat) (u : str) (m : machine) :
  counter_tracks k (msg_cnt m) ->
  counter_tracks (S k) (msg_cnt (snd (turn u m))).
Proof.
  unfold counter_tracks. intros Hk.
  destruct (turn_counter u m) as [E|[E1 E2]]; rewrite ?E, ?E2.
  - destruct Hk as [Hk|Hk]; [|right; zmod].
    destruct (Z.eq_dec (msg_cnt m) 3) as [E3|E3]; [right; zmod|].
    left. zmod.
  - destruct Hk as [Hk|Hk]; [|zmod].
    left. zmod.
Qed.

Lemma counter_tracks_final (pre : list str) (w : W) :
  counter_tracks (List.length pre) (msg_cnt (final pre (init w))).
Proof.
  induction pre as [|u pre IH] using rev_ind.
  - left. reflexivity.
  - rewrite final_snoc, length_app, Nat.add_comm. cbn [List.length Nat.add].
    apply counter_tracks_step, IH.
Qed.

(** *** General facts about conversations *)

(** X14. After any conversation, failed calls included, the buffer holds at
    most one line more than [MAX_BUFFER_SIZE]. *)
Theorem buffer_at_most_one_over (msgs : list str) (w : W) :
  (List.length (buffer (final msgs (init w))) <= MAX_BUFFER_SIZE + 1)%nat.
Proof.
  apply (final_invariant
           (fun m => (List.length (buffer m) <= MAX_BUFFER_SIZE + 1)%nat)).
  - intros u m _. apply turn_buffer_bound.
  - cbn. lia.
Qed.

(** X15. In any conversation, failed calls included, the judge is asked only
    on a call whose index is a multiple of the trigger period. *)
Theorem trigger_only_on_multiples (pre : list str) (u : str) (w : W) :
  judge_consulted (trace (snd (turn u (final pre (init w))))) = true ->
  Z.of_nat (List.length pre + 1) mod TRIGGER_QS = 0.
Proof.
  intros Hj. apply turn_judge_counter in Hj.
  destruct (counter_tracks_final pre w) as [Hk|Hk]; zmod.
Qed.

(** In a conversation in which no call raised, the counter equals the number
    of calls modulo the trigger period. *)
Lemma counter_when_returned (msgs : list str) (w : W) :
  all_returned msgs (init w) = true ->
  msg_cnt (final msgs (init w)) = Z.of_nat (List.length msgs) mod TRIGGER_QS.
Proof.
  induction msgs as [|u pre IH] using rev_ind; intros Hall.
  - reflexivity.
  - rewrite all_returned_snoc in Hall. apply andb_true_iff in Hall as [H1 H2].
    specialize (IH H1). rewrite final_snoc.
    destruct (turn_returned u _ H2) as [_ E]. rewrite E, IH.
    rewrite length_app. cbn [List.length].
    destruct (Z.of_nat (List.length pre) mod TRIGGER_QS + 1 =? TRIGGER_QS)
      eqn:E4; [apply Z.eqb_eq in E4 | apply Z.eqb_neq in E4]; zmod.
Qed.

(** X16. In a conversation in which no call raised, the judge is asked on
    the calls whose index is a multiple of the trigger period and on no
    other, and the counter stays below the trigger period between calls. *)
Theorem trigger_on_every_multiple_when_returned
  (pre : list str) (u : str) (w : W) :
  all_returned (pre ++ [u]) (init w) = true ->
  (judge_consulted (trace (snd (turn u (final pre (init w))))) = true
     <-> Z.of_nat (List.length pre + 1) mod TRIGGER_QS = 0)
  /\ 0 <= msg_cnt (final (pre ++ [u]) (init w)) < TRIGGER_QS.
Proof.
  intros Hall. split.
  - rewrite all_returned_snoc in Hall. apply andb_true_iff in Hall as [H1 H2].
    destruct (turn_returned u _ H2) as [Hiff _]. rewrite Hiff.
    rewrite (counter_when_returned pre w H1).
    split; intros; zmod.
  - rewrite (counter_when_returned _ w Hall).
    apply Z.mod_pos_bound. unfold TRIGGER_QS. lia.
Qed.

(** *** The fatal path *)

Lemma turn_judge_when_main_returns (u : str) (m : machine) ch w1 :
  openai_create (main_request u (buffer m)) (world m) = (Returned ch, w1) ->
  msg_cnt m + 1 = TRIGGER_QS ->
  judge_consulted (trace (snd (turn u m))) = true.
Proof.
  intros Hmain Hn.
  by_paths u m; unfold judge_consulted; cbn [existsb is_judge_call];
    rewrite ?judge_request_is_judge, ?orb_true_r; try reflexivity;
    congruence.
Qed.

(** C10. [chat] is not atomic on a fatal failure: when the primary
    text-generation call raises, [chat] raises the same error, and the machine
    it leaves has the question as the newest buffer line and the counter one
    higher (nothing is rolled back).  The failed question therefore counts:
    when the failure leaves the counter one short of the trigger period, the
    next call whose primary generation returns consults the judge. *)
Theorem chat_not_atomic_on_fatal_failure
  (u : str) (m : machine) (e : exc) (w1 : W) :
  openai_create (main_request u (buffer m)) (world m) = (Raised e, w1) ->
  fst (chat u m) = Raised e
  /\ buffer (snd (chat u m)) = buffer_after_question u (buffer m)
  /\ (exists older, buffer (snd (chat u m)) = older ++ [question_line u])
  /\ msg_cnt (snd (chat u m)) = msg_cnt m + 1
  /\ (forall u' ch w2,
        msg_cnt m + 2 = TRIGGER_QS ->
        openai_create (main_request u' (buffer (snd (chat u m))))
          (world (snd (chat u m))) = (Returned ch, w2) ->
        judge_consulted (trace (snd (turn u' (snd (chat u m))))) = true).
Proof.
  intros Hmain.
  assert (Hcnt : msg_cnt (snd (chat u m)) = msg_cnt m + 1
                 /\ fst (chat u m) = Raised e
                 /\ buffer (snd (chat u m))
                    = buffer_after_question u (buffer m)).
  { pose proof (chat_paths u m) as P.
    destruct (chat u m) as [r m'] eqn:E. cbn [fst snd] in *.
    inversion P; subst; cbn [buffer msg_cnt]; try congruence.
    repeat split; congruence. }
  destruct Hcnt as (Hc & Hr & Hb).
  split; [exact Hr|]. split; [exact Hb|].
  split.
  { rewrite Hb. destruct (buffer_after_question_snoc u (buffer m))
      as (older & Ho & _). now exists older. }
  split; [exact Hc|].
  intros u' ch w2 Hn Hnext.
  apply turn_judge_when_main_returns with (ch := ch) (w1 := w2);
    [exact Hnext | lia].
Qed.

(** *** The lookup decision *)

Lemma lower_none_variants (ps : str) :
  In ps [lit "None"; lit "none"; lit "NONE"] -> lower ps = lit "none".
Proof.
  cbn [In]. intros [E|[E|[E|[]]]]; subst; reflexivity.
Qed.

Lemma lookup_wanted_iff (related : bool) (ps : str) :
  lookup_wanted related ps = true <-> related = true /\ lower ps <> lit "none".
Proof.
  unfold lookup_wanted. rewrite andb_true_iff, negb_true_iff, eqb_neq.
  reflexivity.
Qed.

(** C9. On a turn on which the judge gave a verdict, Product Lookup is
    invoked if and only if the verdict is coherent and the suggestion, in
    lower case, differs from "none"; the lookup is made with the suggestion
    as its query; and the suggestions "None", "none" and "NONE" suppress
    it. *)
Theorem lookup_iff_coherent_and_not_none
  (u : str) (m : machine) (req : request) (ch2 : list (option str))
  (related : bool) (topic ps : str) :
  In (LLMCall req (Returned ch2)) (trace (snd (turn u m))) ->
  is_judge_request req = true ->
  parse_verdict (assemble ch2) = Returned (related, topic, ps) ->
  (lookup_invoked (trace (snd (turn u m))) = true
     <-> related = true /\ lower ps <> lit "none")
  /\ (forall q res, In (SerpCall q res) (trace (snd (turn u m))) ->
        q = search_params ps)
  /\ (In ps [lit "None"; lit "none"; lit "NONE"] ->
        lookup_invoked (trace (snd (turn u m))) = false).
Proof.
  intros Hin Hj Hv.
  assert (Hkey : lookup_invoked (trace (snd (turn u m)))
                 = lookup_wanted related ps
                 /\ (forall q res,
                       In (SerpCall q res) (trace (snd (turn u m))) ->
                       q = search_params ps)).
  { by_paths u m; cbn [In] in Hin;
      repeat match goal with
             | H : _ \/ _ |- _ => destruct H
             | H : False |- _ => destruct H
             end;
      try discriminate;
      match goal with
      | H : LLMCall _ _ = LLMCall _ _ |- _ => inversion H; subst; clear H
      end;
      try (rewrite main_request_not_judge in Hj; discriminate);
      try congruence;
      match goal with
      | H1 : parse_verdict ?x = Returned (?r, ?t, ?p),
        H2 : parse_verdict ?x = Returned (related, topic, ps) |- _ =>
          rewrite H1 in H2; inversion H2; subst; clear H2
      end.
    - split; [cbn; congruence|].
      intros q res [Hq|[Hq|[]]]; discriminate.
    - split; [cbn; congruence|].
      intros q res' [Hq|[Hq|[Hq|[]]]]; try discriminate.
      now inversion Hq. }
  destruct Hkey as [Hk Hq]. rewrite Hk.
  split; [apply lookup_wanted_iff|]. split; [exact Hq|].
  intros Hps. unfold lookup_wanted.
  rewrite (lower_none_variants ps Hps).
  replace (eqb (lit "none") (lit "none")) with true
    by (symmetry; now apply eqb_eq).
  now rewrite andb_false_r.
Qed.

(** *** The shape of the buffer when no call has failed *)

Lemma question_line_is_user (u : str) : is_user_line (question_line u) = true.
Proof. reflexivity. Qed.

Lemma answer_line_is_assistant (a : str) :
  is_assistant_line (answer_line a) = true.
Proof. reflexivity. Qed.

Lemma rev_last_items {A} (n : nat) (l : list A) :
  rev (last_items n l) = firstn n (rev l).
Proof. unfold last_items. now rewrite firstn_rev. Qed.

Lemma last_items_last_items {A} (n k : nat) (l : list A) :
  (n <= k)%nat -> last_items n (last_items k l) = last_items n l.
Proof.
  intros Hnk. unfold last_items at 1. rewrite last_items_length.
  unfold last_items. rewrite skipn_skipn. f_equal. lia.
Qed.

Lemma alternates_back_firstn (n : nat) (user_last : bool) (rb : list str) :
  alternates_back user_last rb = true ->
  alternates_back user_last (firstn n rb) = true.
Proof.
  revert user_last rb. induction n as [|n IH]; intros s [|l rb] H;
    cbn [firstn alternates_back] in *; try reflexivity.
  apply andb_true_iff in H as [H1 H2]. rewrite H1. cbn. now apply IH.
Qed.

Lemma alternates_back_last_items (n : nat) (user_last : bool) (b : list str) :
  alternates_back user_last (rev b) = true ->
  alternates_back user_last (rev (last_items n b)) = true.
Proof. rewrite rev_last_items. apply alternates_back_firstn. Qed.

(** After the question is appended and the buffer trimmed, the newest line
    is the user's and the roles still alternate backwards. *)
Lemma alternates_after_question (u : str) (b : list str) :
  alternates_back false (rev b) = true ->
  alternates_back true (rev (buffer_after_question u b)) = true.
Proof.
  intros H. destruct (buffer_after_question_snoc u b) as (older & E & Eo).
  rewrite E, rev_app_distr. cbn [rev app alternates_back negb].
  rewrite question_line_is_user. cbn [andb]. subst older.
  now apply alternates_back_last_items.
Qed.

Lemma alternates_after_answer (a : str) (b1 : list str) :
  alternates_back true (rev b1) = true ->
  alternates_back false (rev (b1 ++ [answer_line a])) = true.
Proof.
  intros H. rewrite rev_app_distr. cbn [rev app alternates_back negb].
  now rewrite answer_line_is_assistant.
Qed.

Lemma steady_turn (u : str) (m : machine) :
  steady (buffer m) (msg_cnt m) ->
  returned (fst (turn u m)) = true ->
  steady (buffer (snd (turn u m))) (msg_cnt (snd (turn u m))).
Proof.
  unfold steady. intros (Hn & Hlen & Halt).
  by_paths u m; cbn [returned]; intros Hr; try discriminate;
    (split; [unfold TRIGGER_QS in *; lia|]);
    (split; [| now apply alternates_after_answer, alternates_after_question]);
    rewrite length_app, buffer_after_question_length; cbn [List.length];
    unfold TRIGGER_QS, MAX_BUFFER_SIZE in *; lia.
Qed.

Lemma steady_final (msgs : list str) (w : W) :
  all_returned msgs (init w) = true ->
  steady (buffer (final msgs (init w))) (msg_cnt (final msgs (init w))).
Proof.
  apply (final_invariant_returned
           (fun m => steady (buffer m) (msg_cnt m))).
  - intros u m. apply steady_turn.
  - unfold steady, TRIGGER_QS. cbn. repeat split; lia.
Qed.

Lemma six_items {A} (l : list A) :
  List.length l = 6%nat ->
  exists a b c d e f, l = [a; b; c; d; e; f].
Proof.
  destruct l as [|a [|b [|c [|d [|e [|f [|g l]]]]]]]; try discriminate.
  intros _. now exists a, b, c, d, e, f.
Qed.

(** With the counter one short of the trigger period, the window of the
    snapshot is three question/answer pairs and the new question. *)
Lemma steady_window (u : str) (b : list str) (n : Z) :
  steady b n -> n + 1 = TRIGGER_QS ->
  exists q1 a1 q2 a2 q3 a3,
    last_items SNAPSHOT_LINES (buffer_after_question u b)
    = [q1; a1; q2; a2; q3; a3; question_line u]
    /\ is_user_line q1 = true /\ is_assistant_line a1 = true
    /\ is_user_line q2 = true /\ is_assistant_line a2 = true
    /\ is_user_line q3 = true /\ is_assistant_line a3 = true.
Proof.
  intros (Hn & Hlen & Halt) Hn4.
  destruct (buffer_after_question_snoc u b) as (older & E & Eo).
  rewrite E, last_items_snoc by (unfold SNAPSHOT_LINES; lia).
  subst older. rewrite last_items_last_items
    by (unfold SNAPSHOT_LINES, MAX_BUFFER_SIZE; lia).
  change (SNAPSHOT_LINES - 1)%nat with 6%nat.
  pose proof (alternates_back_last_items 6 false b Halt) as Hw.
  destruct (six_items (last_items 6 b)) as (q1 & a1 & q2 & a2 & q3 & a3 & E6).
  { rewrite last_items_length. unfold TRIGGER_QS in *. lia. }
  rewrite E6 in *. cbn in Hw.
  repeat (apply andb_true_iff in Hw as [? Hw] || apply andb_true_iff in Hw).
  exists q1, a1, q2, a2, q3, a3. cbn [app].
  repeat (apply andb_true_iff in Hw as [Hw ?]).
  repeat split; assumption.
Qed.

(** X17.  Whenever a call consults the judge, the request holds the judge's
    system message and one user message: the last [SNAPSHOT_LINES] entries of
    the buffer as it is after the question was appended, all of them when
    there are fewer, joined by newlines and followed by the priming fragment;
    the newest of these entries is the question just appended.  When no
    earlier call of the conversation has raised, they are exactly seven
    entries: three question/answer pairs with their markers, then the current
    question. *)
Theorem snapshot_is_trailing_window
  (pre : list str) (u : str) (w : W) (req : request)
  (res : result (list (option str))) :
  In (LLMCall req res) (trace (snd (turn u (final pre (init w))))) ->
  is_judge_request req = true ->
  let b1 := buffer_after_question u (buffer (final pre (init w))) in
  messages req
  = [(System, judge_sys_msg);
     (User, join NL (last_items SNAPSHOT_LINES b1) ++ NL ++ lit "RELATED:")]
  /\ (exists older, b1 = older ++ [question_line u])
  /\ List.length (last_items SNAPSHOT_LINES b1)
     = Nat.min SNAPSHOT_LINES (List.length b1)
  /\ (all_returned pre (init w) = true ->
      exists q1 a1 q2 a2 q3 a3,
        last_items SNAPSHOT_LINES b1
        = [q1; a1; q2; a2; q3; a3; question_line u]
        /\ is_user_line q1 = true /\ is_assistant_line a1 = true
        /\ is_user_line q2 = true /\ is_assistant_line a2 = true
        /\ is_user_line q3 = true /\ is_assistant_line a3 = true).
Proof.
  intros Hin Hj b1.
  assert (Hcnt : msg_cnt (final pre (init w)) + 1 = TRIGGER_QS).
  { apply (turn_judge_counter u). unfold judge_consulted.
    apply existsb_exists. exists (LLMCall req res). now split. }
  assert (Hreq : req = judge_request b1).
  { subst b1. revert Hin Hcnt. generalize (final pre (init w)) as m.
    intros m Hin Hcnt.
    by_paths u m; cbn [In] in Hin;
      repeat match goal with
             | H : _ \/ _ |- _ => destruct H
             | H : False |- _ => destruct H
             end;
      try discriminate;
      match goal with
      | H : LLMCall _ _ = LLMCall _ _ |- _ => inversion H; subst; clear H
      end;
      try (rewrite main_request_not_judge in Hj; discriminate);
      reflexivity. }
  split; [subst req; reflexivity|].
  split.
  { subst b1. destruct (buffer_after_question_snoc u
                          (buffer (final pre (init w)))) as (older & E & _).
    now exists older. }
  split; [apply last_items_length|].
  intros Hall. subst b1.
  apply steady_window with (n := msg_cnt (final pre (init w)));
    [now apply steady_final | exact Hcnt].
Qed.

(** *** Product Lookup *)

Lemma shopping_search_outcome (query : str) (m : machine) :
  fst (_shopping_search query m)
  = Returned (search_outcome
                (fst (serp_get_dict (search_params query) (world m)))).
Proof.
  unfold _shopping_search.
  now destruct (serp_get_dict (search_params query) (world m)).
Qed.

Lemma endswith_snoc (s : str) (c : char) : endswith (s ++ [c]) [c] = true.
Proof.
  unfold endswith. rewrite rev_app_distr. cbn. now rewrite N.eqb_refl.
Qed.

(** What a record returned by the normalization is made of. *)
Lemma normalize_result_some (results : json) (p : product) :
  normalize_result results = Returned (Some p) ->
  exists item src title,
    first_item results = Returned item
    /\ usable_link item = Returned (link p) /\ truthy (link p) = true
    /\ dict_get item (lit "title") (JStr []) = Returned title
    /\ name p = title
    /\ description_source item = Returned (JStr src)
    /\ desc p = firstn 160 src ++ [ELLIPSIS].
Proof.
  unfold normalize_result.
  destruct (first_item results) as [item|] eqn:Ei; [|discriminate].
  destruct (usable_link item) as [lnk|] eqn:El; [|discriminate].
  destruct (truthy lnk) eqn:Et; cbn [negb]; [|discriminate].
  destruct (dict_get item (lit "title") (JStr [])) as [title|] eqn:Ett;
    [|discriminate].
  destruct (description_source item) as [src|] eqn:Es; [|discriminate].
  destruct src; cbn [slice_plus_ellipsis]; try discriminate.
  intros E. inversion E; subst; clear E. cbn [name link desc].
  exists item, s, title. repeat split; solve [assumption | reflexivity].
Qed.

(** C7. The description of every Product Record returned by
    [_shopping_search] is the source description (the snippet when there is
    one, the long description otherwise, else the empty text) cut to its first
    160 characters and followed by the ellipsis, whether or not anything was
    cut; it is at most 161 characters long and ends with the ellipsis. *)
Theorem description_truncated_with_ellipsis
  (query : str) (m : machine) (p : product) :
  fst (_shopping_search query m) = Returned (Some p) ->
  exists results item src,
    fst (serp_get_dict (search_params query) (world m)) = Returned results
    /\ first_item results = Returned item
    /\ description_source item = Returned (JStr src)
    /\ (forall sn de,
          dict_get item (lit "snippet") JNull = Returned sn ->
          dict_get item (lit "description") JNull = Returned de ->
          JStr src = (if truthy sn then sn
                      else if truthy de then de else JStr []))
    /\ desc p = firstn 160 src ++ [ELLIPSIS]
    /\ (List.length (desc p) <= 161)%nat
    /\ endswith (desc p) [ELLIPSIS] = true.
Proof.
  rewrite shopping_search_outcome. intros H.
  destruct (fst (serp_get_dict (search_params query) (world m)))
    as [results|e]; cbn [search_outcome] in H; [|discriminate].
  destruct (normalize_result results) as [[q|]|] eqn:En; try discriminate.
  inversion H; subst q; clear H.
  destruct (normalize_result_some results p En)
    as (item & src & title & Hi & _ & _ & _ & _ & Hs & Hd).
  exists results, item, src.
  split; [reflexivity|]. split; [exact Hi|]. split; [exact Hs|].
  split.
  { intros sn de Hsn Hde. unfold description_source in Hs.
    rewrite Hsn, Hde in Hs. unfold py_or in Hs.
    inversion Hs as [E]. now rewrite E. }
  split; [exact Hd|]. rewrite Hd. split.
  - rewrite length_app, length_firstn. cbn [List.length]. lia.
  - apply endswith_snoc.
Qed.

Lemma search_outcome_expected (res : result json) :
  expected_response res = true ->
  (search_outcome res = None
     <-> provider_erred res = true \/ no_entries res = true
         \/ first_entry_without_link res = true)
  /\ (forall p, search_outcome res = Some p -> well_formed_product p).
Proof.
  unfold expected_response, provider_erred, no_entries,
    first_entry_without_link.
  destruct res as [results|e]; cbn [returned negb search_outcome].
  2:{ intros _. split; [tauto | discriminate]. }
  unfold result_set, normalize_result, first_item. cbn [dict_get].
  destruct results as [| | | | |f]; try discriminate.
  cbn [dict_get].
  destruct (lookup (lit "shopping_results") f) as [[| | | |items|]|];
    try discriminate.
  2:{ intros _. cbn. split; [tauto | discriminate]. }
  destruct items as [|item rest].
  { intros _. cbn. split; [tauto | discriminate]. }
  cbn [forallb py_or truthy subscript0]. intros Hl.
  apply andb_true_iff in Hl as [Hl _].
  destruct item as [| | | | |fi]; try discriminate.
  unfold is_listing, optional_text in Hl.
  unfold usable_link, description_source, has_text, slice_plus_ellipsis.
  cbn [dict_get].
  assert (Hcut : forall s : str, (List.length (firstn 160 s) <= 160)%nat)
    by (intros s; rewrite length_firstn; lia).
  revert Hcut. generalize (firstn 160 (A := char)) as cut. intros cut Hcut.
  destruct (lookup (lit "title") fi) as [[| | |t| |]|];
    try discriminate;
  destruct (lookup (lit "link") fi) as [[| | |[|c1 l1]| |]|];
    try discriminate;
  destruct (lookup (lit "product_link") fi) as [[| | |[|c2 l2]| |]|];
    try discriminate;
  destruct (lookup (lit "snippet") fi) as [[| | |[|c3 l3]| |]|];
    try discriminate;
  destruct (lookup (lit "description") fi) as [[| | |[|c4 l4]| |]|];
    try discriminate;
  cbn [py_or truthy negb andb orb];
  (split; [split; [intros E; try discriminate; tauto
                  | intros [E|[E|E]]; try discriminate; reflexivity]
          | intros p E; try discriminate; injection E as <-;
            unfold well_formed_product; cbn [name link desc];
            do 3 eexists;
            (split; [reflexivity|]); (split; [reflexivity|]);
            (split; [discriminate|]); (split; [reflexivity|]);
            apply Hcut]).
Qed.

(** C6. [_shopping_search] never raises: it returns "no result" or a record.
    For a provider response of the interface (an error, or a result set whose
    entries have optional texts), "no result" is returned exactly when the
    provider erred, returned no entries, or the first entry has neither a
    link nor a product link; otherwise the record is well formed.  Whatever
    the payload, a returned record has a link that is not empty and a
    description that ends with the ellipsis. *)
Theorem shopping_search_never_raises (query : str) (m : machine) :
  let res := fst (serp_get_dict (search_params query) (world m)) in
  fst (_shopping_search query m) = Returned (search_outcome res)
  /\ (forall p, search_outcome res = Some p ->
        truthy (link p) = true /\ endswith (desc p) [ELLIPSIS] = true)
  /\ (expected_response res = true ->
      (search_outcome res = None
         <-> provider_erred res = true \/ no_entries res = true
             \/ first_entry_without_link res = true)
      /\ (forall p, search_outcome res = Some p -> well_formed_product p)).
Proof.
  intros res. split; [apply shopping_search_outcome|]. split.
  - intros p Hp. destruct res as [results|e]; cbn [search_outcome] in Hp;
      [|discriminate].
    destruct (normalize_result results) as [[q|]|] eqn:En; try discriminate.
    inversion Hp; subst q; clear Hp.
    destruct (normalize_result_some results p En)
      as (item & src & title & _ & _ & Ht & _ & _ & _ & Hd).
    split; [exact Ht|]. rewrite Hd. apply endswith_snoc.
  - apply search_outcome_expected.
Qed.

(** *** The gateway *)

Lemma join_empty_concat (parts : list str) : join [] parts = List.concat parts.
Proof.
  induction parts as [|p [|q rest] IH]; cbn [join List.concat] in *.
  - reflexivity.
  - now rewrite app_nil_r.
  - now rewrite IH.
Qed.

Lemma kept_parts_concat (chunks : list (option str)) :
  List.concat (kept_parts chunks) = List.concat (List.map fragment_text chunks).
Proof.
  induction chunks as [|[[|c s]|] rest IH]; cbn [kept_parts List.map List.concat
    fragment_text app]; rewrite ?IH; reflexivity.
Qed.

(** X1. [_stream_chat] returns the fragments' texts put together in arrival
    order and stripped: how the service cuts the completion into fragments,
    and fragments that are empty or [None], make no difference.  A provider
    error is passed on.  The buffer and the counter are left as they were. *)
Theorem stream_chat_concatenates
  (msgs : list (role * str)) (temp : Q) (maxtok : Z) (m : machine) :
  let req := {| messages := msgs; temperature := temp;
                max_tokens := maxtok |} in
  fst (_stream_chat msgs temp maxtok m)
  = match fst (openai_create req (world m)) with
    | Returned chunks =>
        Returned (strip (List.concat (List.map fragment_text chunks)))
    | Raised e => Raised e
    end
  /\ buffer (snd (_stream_chat msgs temp maxtok m)) = buffer m
  /\ msg_cnt (snd (_stream_chat msgs temp maxtok m)) = msg_cnt m.
Proof.
  intros req. unfold _stream_chat. fold req.
  destruct (openai_create req (world m)) as [[chunks|e] w1];
    cbn [fst snd buffer msg_cnt]; repeat split.
  unfold assemble. now rewrite join_empty_concat, kept_parts_concat.
Qed.

Lemma lstrip_head (s : str) (c : char) (r : str) :
  lstrip s = c :: r -> is_space c = false.
Proof.
  induction s as [|d s IH]; cbn [lstrip]; [discriminate|].
  destruct (is_space d) eqn:E; [exact IH|].
  intros H. inversion H; subst. exact E.
Qed.

Lemma lstrip_keeps_last (x : str) (c : char) :
  is_space c = false -> exists y, lstrip (x ++ [c]) = y ++ [c].
Proof.
  intros Hc. induction x as [|d x IH]; cbn [lstrip app].
  - rewrite Hc. now exists [].
  - destruct (is_space d); [exact IH|]. now exists (d :: x).
Qed.

Lemma strip_no_surrounding_space (s : str) :
  (forall c r, strip s = c :: r -> is_space c = false)
  /\ (forall c i, strip s = i ++ [c] -> is_space c = false).
Proof.
  unfold strip, rstrip. split.
  - intros c r H. destruct (lstrip s) as [|c0 t] eqn:El.
    + cbn in H. discriminate.
    + pose proof (lstrip_head s c0 t El) as Hc0.
      cbn [rev] in H.
      destruct (lstrip_keeps_last (rev t) c0 Hc0) as [y Hy].
      rewrite Hy, rev_app_distr in H. cbn in H.
      inversion H; subst. exact Hc0.
  - intros c i H. apply (f_equal (@rev char)) in H.
    rewrite rev_involutive, rev_app_distr in H. cbn in H.
    now apply lstrip_head in H.
Qed.

(** X2. The text [_stream_chat] returns neither begins nor ends with a
    whitespace character. *)
Theorem stream_chat_stripped
  (msgs : list (role * str)) (temp : Q) (maxtok : Z) (m : machine)
  (a : str) :
  fst (_stream_chat msgs temp maxtok m) = Returned a ->
  (forall c r, a = c :: r -> is_space c = false)
  /\ (forall c i, a = i ++ [c] -> is_space c = false).
Proof.
  unfold _stream_chat.
  destruct (openai_create _ (world m)) as [[chunks|e] w1];
    cbn [fst]; intros H; inversion H; subst.
  apply strip_no_surrounding_space.
Qed.

(** *** The calls of one turn *)

(** X3. One call of [chat] asks the text-generation service for the answer
    first; it asks the judge at most once, after that; it asks the shopping
    search at most once, and only after the judge.  It makes no other
    call. *)
Theorem turn_calls_shape (u : str) (m : machine) :
  let b1 := buffer_after_question u (buffer m) in
  exists r1,
    trace (snd (turn u m)) = [LLMCall (main_request u (buffer m)) r1]
    \/ (exists r2,
          trace (snd (turn u m))
          = [LLMCall (main_request u (buffer m)) r1;
             LLMCall (judge_request b1) r2])
    \/ (exists r2 q r3,
          trace (snd (turn u m))
          = [LLMCall (main_request u (buffer m)) r1;
             LLMCall (judge_request b1) r2;
             SerpCall (search_params q) r3]).
Proof.
  intros b1. subst b1.
  by_paths u m; eexists;
    first [ left; reflexivity
          | right; left; eexists; reflexivity
          | right; right; do 3 eexists; reflexivity ].
Qed.

(** X4. The answer [chat] returns begins with the primary answer of the
    text-generation service.  It is that answer unchanged unless the shopping
    search was invoked, in which case it may be followed by one
    recommendation; on a call that does not bring the counter to the trigger
    period it is always unchanged. *)
Theorem reply_extends_primary_answer (u : str) (m : machine) (a : str) :
  fst (turn u m) = Returned a ->
  exists ch w1,
    openai_create (main_request u (buffer m)) (world m) = (Returned ch, w1)
    /\ (a = assemble ch
        \/ (lookup_invoked (trace (snd (turn u m))) = true
            /\ exists topic p, a = assemble ch ++ recommendation topic p))
    /\ (msg_cnt m + 1 <> TRIGGER_QS -> a = assemble ch).
Proof.
  by_paths u m; intros Hr; inversion Hr; subst; try discriminate.
  - exists ch, w1. repeat split; auto.
  - exists ch, w1. split; [assumption|]. split; [now left|]. reflexivity.
  - exists ch, w1. split; [assumption|]. split.
    + destruct (search_outcome res) as [p|]; cbn [with_recommendation].
      * right. split; [reflexivity|]. now exists topic, p.
      * now left.
    + intros Hn. contradiction.
Qed.

(** *** Eviction *)

(** X5. Eviction is first in, first out, and no larger than needed: a call
    of [chat] drops from the front of the buffer the lines by which the
    buffer with the new question exceeds [MAX_BUFFER_SIZE], keeps all the
    others in order, and adds the question and, when it returns, the answer
    at the end. *)
Theorem turn_buffer_fifo (u : str) (m : machine) :
  exists dropped kept,
    buffer m = dropped ++ kept
    /\ List.length dropped
       = (List.length (buffer m) + 1 - MAX_BUFFER_SIZE)%nat
    /\ buffer (snd (turn u m))
       = kept ++ question_line u
              :: match fst (turn u m) with
                 | Returned a => [answer_line a]
                 | Raised _ => []
                 end.
Proof.
  destruct (buffer_after_question_snoc u (buffer m)) as (older & E & Eo).
  exists (firstn (List.length (buffer m) - (MAX_BUFFER_SIZE - 1)) (buffer m)),
         older.
  split.
  { subst older. unfold last_items. now rewrite firstn_skipn. }
  split.
  { rewrite length_firstn. unfold MAX_BUFFER_SIZE. lia. }
  clear Eo. revert E. generalize older. clear older. intros older E.
  by_paths u m; rewrite E, <- ?app_assoc; reflexivity.
Qed.

Lemma turn_returned_length (u : str) (m : machine) :
  returned (fst (turn u m)) = true ->
  List.length (buffer (snd (turn u m)))
  = (Nat.min MAX_BUFFER_SIZE (List.length (buffer m) + 1) + 1)%nat.
Proof.
  by_paths u m; cbn [returned]; intros Hr; try discriminate;
    now rewrite length_app, buffer_after_question_length.
Qed.

(** X6. In a conversation in which no call raised, the buffer holds two
    lines per call until it is full, and [MAX_BUFFER_SIZE + 1] lines from
    then on. *)
Theorem buffer_length_when_returned (msgs : list str) (w : W) :
  all_returned msgs (init w) = true ->
  List.length (buffer (final msgs (init w)))
  = Nat.min (2 * List.length msgs) (MAX_BUFFER_SIZE + 1).
Proof.
  induction msgs as [|u pre IH] using rev_ind; intros Hall.
  - reflexivity.
  - rewrite all_returned_snoc in Hall. apply andb_true_iff in Hall as [H1 H2].
    rewrite final_snoc, (turn_returned_length u _ H2), (IH H1), length_app.
    cbn [List.length]. unfold MAX_BUFFER_SIZE. lia.
Qed.

(** *** A counter that has passed the trigger period *)

Lemma turn_past_trigger (u : str) (m : machine) :
  TRIGGER_QS <= msg_cnt m ->
  msg_cnt (snd (turn u m)) = msg_cnt m + 1
  /\ judge_consulted (trace (snd (turn u m))) = false
  /\ lookup_invoked (trace (snd (turn u m))) = false.
Proof.
  intros Hn.
  by_paths u m; try (unfold TRIGGER_QS in *; lia);
    unfold judge_consulted, lookup_invoked;
    cbn [existsb is_judge_call is_lookup_call];
    now rewrite main_request_not_judge.
Qed.

(** X7. Once the counter has reached the trigger period between calls, as an
    exception on a trigger call leaves it, no later call consults the judge
    or the shopping search, whatever the services answer, and the counter
    only grows. *)
Theorem trigger_dead_once_counter_passes (msgs : list str) (m : machine) :
  TRIGGER_QS <= msg_cnt m ->
  msg_cnt (final msgs m) = msg_cnt m + Z.of_nat (List.length msgs)
  /\ Forall (fun rm => judge_consulted (trace (snd rm)) = false
                       /\ lookup_invoked (trace (snd rm)) = false)
       (conversation msgs m).
Proof.
  revert m. induction msgs as [|u rest IH]; intros m Hn;
    cbn [final conversation List.length].
  - split; [lia | constructor].
  - destruct (turn_past_trigger u m Hn) as (Hc & Hj & Hl).
    destruct (IH (snd (turn u m))) as [IH1 IH2]; [lia|].
    split; [rewrite IH1, Hc; lia|].
    constructor; [now split | exact IH2].
Qed.

(** *** The history sent to the text-generation service *)

Lemma context_pairs_transcript (hist : list (str * str)) (u : str) :
  context_pairs (transcript_lines hist ++ [question_line u])
  = transcript_messages hist.
Proof.
  induction hist as [|[q a] rest IH];
    cbn [transcript_lines transcript_messages app context_pairs].
  - reflexivity.
  - rewrite IH. reflexivity.
Qed.

Lemma buffer_after_question_no_trim (u : str) (b : list str) :
  (List.length b + 1 <= MAX_BUFFER_SIZE)%nat ->
  buffer_after_question u b = b ++ [question_line u].
Proof.
  intros H. unfold buffer_after_question, trimmed.
  destruct (MAX_BUFFER_SIZE <? List.length (b ++ [question_line u]))%nat
    eqn:E; [|reflexivity].
  apply Nat.ltb_lt in E. rewrite length_app in E. cbn in E. lia.
Qed.

Lemma turn_returned_buffer (u : str) (m : machine) (a : str) :
  fst (turn u m) = Returned a ->
  buffer (snd (turn u m))
  = buffer_after_question u (buffer m) ++ [answer_line a].
Proof.
  by_paths u m; intros Hr; inversion Hr; subst; reflexivity.
Qed.

Lemma transcript_lines_app (h1 h2 : list (str * str)) :
  transcript_lines (h1 ++ h2) = transcript_lines h1 ++ transcript_lines h2.
Proof.
  induction h1 as [|[q a] h1 IH]; cbn [transcript_lines app];
    [reflexivity | now rewrite IH].
Qed.

Lemma buffer_is_transcript_from (msgs : list str) (m : machine) :
  all_returned msgs m = true ->
  (List.length (buffer m) + 2 * List.length msgs <= MAX_BUFFER_SIZE)%nat ->
  buffer (final msgs m) = buffer m ++ transcript_lines (exchanges msgs m)
  /\ List.map fst (exchanges msgs m) = msgs.
Proof.
  revert m. induction msgs as [|u rest IH]; intros m Hall Hlen;
    cbn [final exchanges List.length] in *.
  - split; [now rewrite app_nil_r | reflexivity].
  - unfold all_returned in Hall. cbn [conversation forallb] in Hall.
    apply andb_true_iff in Hall as [H1 H2].
    destruct (fst (turn u m)) as [a|e] eqn:Er; cbn [returned] in H1;
      [|discriminate].
    pose proof (turn_returned_buffer u m a Er) as Hb.
    rewrite buffer_after_question_no_trim in Hb by lia.
    destruct (turn u m) as [r m'] eqn:Et. cbn [fst snd] in *. subst r.
    destruct (IH m' H2) as [IH1 IH2].
    { rewrite Hb, !length_app. cbn [List.length]. lia. }
    split.
    + rewrite IH1, Hb. cbn [transcript_lines List.map fst].
      rewrite <- !app_assoc. reflexivity.
    + cbn [List.map fst]. now rewrite IH2.
Qed.

(** X8. While the buffer has room (fewer than fifty calls, none of which
    raised), it is the transcript of the conversation: each question with its
    marker followed by the answer it got with its marker, in order.  The
    context then sent for the next question is that transcript with the
    markers removed, each question as the user's and each answer as the
    assistant's, followed by the new question. *)
Theorem history_sent_in_full (msgs : list str) (w : W) (u : str) :
  all_returned msgs (init w) = true ->
  (List.length msgs < 50)%nat ->
  let hist := exchanges msgs (init w) in
  List.map fst hist = msgs
  /\ buffer (final msgs (init w)) = transcript_lines hist
  /\ roles_by_parity (buffer (final msgs (init w))) = true
  /\ messages (main_request u (buffer (final msgs (init w))))
     = (System, assistant_sys_msg)
       :: transcript_messages hist ++ [(User, u)].
Proof.
  intros Hall Hlen hist.
  destruct (buffer_is_transcript_from msgs (init w) Hall) as [Hb Hq].
  { cbn [init buffer List.length]. unfold MAX_BUFFER_SIZE. lia. }
  cbn [init buffer app] in Hb. fold hist in Hb, Hq.
  split; [exact Hq|]. split; [exact Hb|]. split.
  - rewrite Hb. clear. induction hist as [|[q a] rest IH];
      [reflexivity|]. cbn [transcript_lines roles_by_parity].
    rewrite IH. reflexivity.
  - unfold main_request. cbn [messages].
    rewrite buffer_after_question_no_trim.
    + now rewrite Hb, context_pairs_transcript.
    + rewrite Hb. assert (Hl : List.length (transcript_lines hist)
                               = (2 * List.length hist)%nat).
      { clear. induction hist as [|[q a] rest IH]; cbn [transcript_lines
          List.length]; [reflexivity | rewrite IH; lia]. }
      rewrite Hl, <- (length_map fst hist), Hq.
      unfold MAX_BUFFER_SIZE. lia.
Qed.

(** *** Product Lookup: which entry, which fields *)

(** X9. Only the first entry of the result set is looked at: the entries
    after it never change what [_shopping_search] returns, so a first entry
    without a link gives "no result" whatever follows it. *)
Theorem only_first_entry_considered
  (f : list (str * json)) (item : json) (rest : list json) :
  lookup (lit "shopping_results") f = Some (JList (item :: rest)) ->
  search_outcome (Returned (JObj f))
  = search_outcome
      (Returned (JObj [(lit "shopping_results", JList [item])])).
Proof.
  intros H. unfold search_outcome, normalize_result, first_item.
  cbn [dict_get]. rewrite H.
  replace (lookup (lit "shopping_results")
             [(lit "shopping_results", JList [item])])
    with (Some (JList [item])) by reflexivity.
  reflexivity.
Qed.

(** X10. The fields of a returned record: the link is the entry's "link"
    when that is not empty and its "product_link" otherwise; the name is the
    entry's "title", or the empty text when the entry has none. *)
Theorem record_fields_of_first_entry
  (f fi : list (str * json)) (rest : list json) (p : product) :
  lookup (lit "shopping_results") f = Some (JList (JObj fi :: rest)) ->
  search_outcome (Returned (JObj f)) = Some p ->
  (forall v, lookup (lit "link") fi = Some v -> truthy v = true ->
             link p = v)
  /\ ((lookup (lit "link") fi = None
       \/ exists v, lookup (lit "link") fi = Some v /\ truthy v = false) ->
      lookup (lit "product_link") fi = Some (link p))
  /\ name p = match lookup (lit "title") fi with
              | Some t => t
              | None => JStr []
              end.
Proof.
  intros Hsr Hp. cbn [search_outcome] in Hp.
  destruct (normalize_result (JObj f)) as [[q|]|] eqn:En; try discriminate.
  inversion Hp; subst q; clear Hp.
  destruct (normalize_result_some _ _ En)
    as (item & src & title & Hi & Hl & Ht & Htt & Hn & _ & _).
  unfold first_item in Hi. cbn [dict_get] in Hi. rewrite Hsr in Hi.
  cbn in Hi. inversion Hi; subst item; clear Hi.
  unfold usable_link in Hl. cbn [dict_get] in *.
  split; [|split; [|rewrite Hn; now inversion Htt]].
  - intros v Hv Htv. rewrite Hv in Hl. unfold py_or in Hl.
    rewrite Htv in Hl. now inversion Hl.
  - intros Hno. injection Hl as E.
    assert (E' : link p = py_or
                   match lookup (lit "product_link") fi with
                   | Some x => x | None => JNull end (JStr [])).
    { destruct Hno as [Hno|(v & Hv & Htv)].
      - rewrite Hno in E. unfold py_or at 1 in E. cbn [truthy] in E.
        now symmetry.
      - rewrite Hv in E. unfold py_or at 1 in E. rewrite Htv in E.
        now symmetry. }
    rewrite E' in Ht |- *. unfold py_or in *.
    destruct (lookup (lit "product_link") fi) as [x|].
    + destruct (truthy x); [reflexivity | discriminate].
    + cbn in Ht. discriminate.
Qed.

(** *** The console loop *)

Lemma repl_when_returned (events : list console_event) (m : machine)
  (printed : list str) :
  all_returned (session_questions events) m = true ->
  repl events m printed
  = (Ended, final (session_questions events) m,
     printed
     ++ List.map ai_line
          (List.map snd (exchanges (session_questions events) m))).
Proof.
  revert m printed.
  induction events as [|[line|] rest IH]; intros m printed Hall;
    cbn [repl session_questions final exchanges List.map];
    rewrite ?app_nil_r; try reflexivity.
  cbn [session_questions] in Hall.
  destruct (is_quit (strip line));
    cbn [final exchanges List.map]; rewrite ?app_nil_r; [reflexivity|].
  unfold all_returned in Hall. cbn [conversation forallb] in Hall.
  apply andb_true_iff in Hall as [H1 H2].
  destruct (turn (strip line) m) as [[a|e] m'] eqn:Et;
    cbn [fst snd returned] in *; [|discriminate].
  rewrite (IH m' _ H2). cbn [List.map snd]. now rewrite <- app_assoc.
Qed.

Lemma repl_when_raised (events : list console_event) (m : machine)
  (printed : list str) :
  all_returned (session_questions events) m = false ->
  exists e m' pr, repl events m printed = (Crashed e, m', pr).
Proof.
  revert m printed.
  induction events as [|[line|] rest IH]; intros m printed Hall;
    cbn [repl session_questions] in *; try discriminate.
  destruct (is_quit (strip line)); [discriminate|].
  unfold all_returned in Hall. cbn [conversation forallb] in Hall.
  destruct (turn (strip line) m) as [[a|e] m'] eqn:Et;
    cbn [fst snd returned andb] in *.
  - now apply IH.
  - now exists e, m', printed.
Qed.

Lemma exchanges_questions (msgs : list str) (m : machine) :
  all_returned msgs m = true -> List.map fst (exchanges msgs m) = msgs.
Proof.
  revert m. induction msgs as [|u rest IH]; intros m Hall;
    cbn [exchanges]; [reflexivity|].
  unfold all_returned in Hall. cbn [conversation forallb] in Hall.
  apply andb_true_iff in Hall as [H1 H2].
  destruct (turn u m) as [[a|e] m'] eqn:Et; cbn [fst snd returned] in *;
    [|discriminate].
  cbn [List.map fst]. now rewrite (IH m' H2).
Qed.

(** X11. A console session is the conversation of its questions: the typed
    lines, stripped, up to the first line that reads "quit" in any letter
    case, the first interrupt or the end of the input.  When no call raises,
    [main] ends normally having printed one answer per question, in order,
    and leaves the orchestrator as that conversation leaves it; an empty line
    is a question like any other.  When a call raises, [main] does not end
    normally: the exception leaves it. *)
Theorem main_runs_the_conversation
  (events : list console_event) (w : W) :
  let qs := session_questions events in
  (all_returned qs (init w) = true ->
   main events w
   = (Ended, final qs (init w),
      List.map ai_line (List.map snd (exchanges qs (init w))))
   /\ List.map fst (exchanges qs (init w)) = qs)
  /\ (all_returned qs (init w) = false ->
      exists e m' pr, main events w = (Crashed e, m', pr)).
Proof.
  intros qs. split.
  - intros Hall. split.
    + unfold main. now rewrite repl_when_returned.
    + now apply exchanges_questions.
  - intros Hall. unfold main. now apply repl_when_raised.
Qed.

End Orchestrator.

Arguments buffer {W} m.
Arguments msg_cnt {W} m.
Arguments world {W} m.
Arguments trace {W} m.

(** ** Runs in the scripted world *)

Abbreviation scripted_run script msgs :=
  (conversation Scripted.world Scripted.openai_create Scripted.serp_get_dict
     Scripted.api_key Scripted.format_other
     (List.map lit msgs) (init Scripted.world script)).

Abbreviation scripted_final script msgs :=
  (final Scripted.world Scripted.openai_create Scripted.serp_get_dict
     Scripted.api_key Scripted.format_other
     (List.map lit msgs) (init Scripted.world script)).


Abbreviation scripted_chat :=
  (chat Scripted.world Scripted.openai_create Scripted.serp_get_dict
     Scripted.api_key Scripted.format_other).

Abbreviation scripted_turn :=
  (turn Scripted.world Scripted.openai_create Scripted.serp_get_dict
     Scripted.api_key Scripted.format_other).

Abbreviation scripted_all_returned script msgs :=
  (all_returned Scripted.world Scripted.openai_create Scripted.serp_get_dict
     Scripted.api_key Scripted.format_other
     (List.map lit msgs) (init Scripted.world script)).

(** *** The verdict parser on the shapes of answer it meets *)

Example parse_well_formed :
  parse_verdict (lit "yes
TOPIC: running shoes
P/S: trail running shoes")
  = Returned (true, lit "running shoes", lit "trail running shoes").
Proof. reflexivity. Qed.

Example parse_with_field_names :
  parse_verdict (lit "RELATED: Yes
TOPIC: running shoes
P/S: trail running shoes
(sponsored)")
  = Returned (true, lit "running shoes", lit "trail running shoes").
Proof. reflexivity. Qed.

Example parse_truncated :
  parse_verdict (lit "no") = Returned (false, lit "None", lit "None").
Proof. reflexivity. Qed.

Example parse_empty :
  parse_verdict [] = Returned (false, lit "None", lit "None").
Proof. reflexivity. Qed.

Lemma split_once_second (sep : char) (s : str) :
  (In sep s -> exists v, nth_error (split_once sep s) 1 = Some v)
  /\ (~ In sep s -> nth_error (split_once sep s) 1 = None).
Proof.
  induction s as [|c s IH]; cbn [split_once].
  - split; [intros [] | reflexivity].
  - destruct (N.eqb_spec c sep) as [E|E].
    + split; [intros _; now exists s | intros H; exfalso; apply H; now left].
    + destruct IH as [IH1 IH2].
      destruct (split_once sep s) as [|before more] eqn:Es.
      * split; [|reflexivity]. intros [H|H]; [contradiction|].
        destruct (IH1 H) as [v Hv]. discriminate.
      * cbn [nth_error] in *. split.
        -- intros [H|H]; [contradiction | now apply IH1].
        -- intros H. apply IH2. intros H'. apply H. now right.
Qed.

Lemma field_after_colon_returns (line : str) :
  (exists v, field_after_colon line = Returned v) <-> In 58%N line.
Proof.
  unfold field_after_colon.
  destruct (split_once_second 58%N line) as [H1 H2].
  destruct (in_dec N.eq_dec 58%N line) as [Hin|Hin].
  - destruct (H1 Hin) as [v Hv]. rewrite Hv. split; [auto | eauto].
  - rewrite (H2 Hin). split; [intros [v Hv]; discriminate | contradiction].
Qed.

(** X13. The parser returns exactly when the second and the third line,
    where present, each hold a colon; otherwise it raises. *)
Lemma parse_verdict_returns_iff (raw : str) :
  (exists v, parse_verdict raw = Returned v)
  <-> (forall l, nth_error (splitlines raw) 1 = Some l -> In 58%N l)
      /\ (forall l, nth_error (splitlines raw) 2 = Some l -> In 58%N l).
Proof.
  unfold parse_verdict.
  destruct (nth_error (splitlines raw) 1) as [l1|];
    destruct (nth_error (splitlines raw) 2) as [l2|].
  all: repeat match goal with
         | |- context [field_after_colon ?l] =>
             let H := fresh "H" in
             pose proof (field_after_colon_returns l) as H;
             destruct (field_after_colon l)
         end.
  all: split;
    [ intros [v Hv]; try discriminate;
      split; intros l E; inversion E; subst;
      match goal with H : _ <-> In _ l |- _ => apply H; eauto end
    | intros [A1 A2]; try (eexists; reflexivity);
      exfalso;
      repeat match goal with
             | H : (exists v, Raised _ = Returned v) <-> In _ ?l |- _ =>
                 let Hx := fresh in
                 assert (Hx : In 58%N l) by (first [now apply A1 | now apply A2]);
                 apply H in Hx; destruct Hx as [? Hx]; discriminate
             end ].
Qed.

Lemma splitlines_from_line (l cur rest : str) :
  single_line l ->
  splitlines_from cur (l ++ 10%N :: rest)
  = (rev cur ++ l) :: splitlines_from [] rest.
Proof.
  revert cur. induction l as [|c l IH]; intros cur Hl; cbn [app splitlines_from].
  - rewrite app_nil_r.
    replace (is_linebreak 10%N) with true by reflexivity.
    destruct rest as [|c' rest']; reflexivity.
  - rewrite (Hl c) by now left.
    rewrite IH by (intros d Hd; apply Hl; now right).
    cbn [rev]. now rewrite <- app_assoc.
Qed.

Lemma splitlines_from_last (l cur : str) :
  single_line l -> l <> [] ->
  splitlines_from cur l = [rev cur ++ l].
Proof.
  revert cur. induction l as [|c l IH]; intros cur Hl Hne;
    [contradiction|]. cbn [splitlines_from].
  rewrite (Hl c) by now left.
  destruct l as [|d l'].
  - cbn [splitlines_from]. reflexivity.
  - rewrite IH; [| intros e He; apply Hl; now right | discriminate].
    cbn [rev]. now rewrite <- app_assoc.
Qed.

Lemma single_line_app (a b : str) :
  single_line a -> single_line b -> single_line (a ++ b).
Proof.
  intros Ha Hb c Hc. apply in_app_or in Hc as [Hc|Hc]; auto.
Qed.

Lemma single_line_literal (s : str) :
  forallb (fun c => negb (is_linebreak c)) s = true -> single_line s.
Proof.
  intros H c Hc. rewrite forallb_forall in H.
  apply H in Hc. now apply negb_true_iff in Hc.
Qed.

Lemma verdict_text_lines (related : bool) (topic ps extra : str) :
  single_line topic -> single_line ps ->
  splitlines (verdict_text related topic ps ++ NL ++ extra)
  = (lit "RELATED: " ++ (if related then lit "yes" else lit "no"))
    :: (lit "TOPIC:" ++ topic) :: (lit "P/S:" ++ ps) :: splitlines extra
  /\ splitlines (verdict_text related topic ps)
     = [lit "RELATED: " ++ (if related then lit "yes" else lit "no");
        lit "TOPIC:" ++ topic; lit "P/S:" ++ ps].
Proof.
  intros Ht Hp.
  assert (H0 : single_line
                 (lit "RELATED: " ++ (if related then lit "yes" else lit "no")))
    by (destruct related; now apply single_line_literal).
  assert (H1 : single_line (lit "TOPIC:" ++ topic))
    by (apply single_line_app; [now apply single_line_literal | exact Ht]).
  assert (H2 : single_line (lit "P/S:" ++ ps))
    by (apply single_line_app; [now apply single_line_literal | exact Hp]).
  set (l0 := lit "RELATED: " ++ (if related then lit "yes" else lit "no"))
    in *.
  set (l1 := lit "TOPIC:" ++ topic) in *.
  set (l2 := lit "P/S:" ++ ps) in *.
  assert (E : verdict_text related topic ps = l0 ++ 10%N :: (l1 ++ 10%N :: l2)).
  { unfold verdict_text, NL, l0, l1, l2. rewrite <- !app_assoc. reflexivity. }
  assert (Hne : l2 <> []) by (unfold l2; discriminate).
  unfold splitlines. rewrite E. split.
  - unfold NL. rewrite <- !app_assoc. cbn [app].
    rewrite <- !app_assoc. cbn [app].
    now rewrite !splitlines_from_line.
  - rewrite !splitlines_from_line by assumption.
    now rewrite splitlines_from_last.
Qed.

(** X12. Round trip of the judge's protocol: an answer in the format the
    system message asks for, with any one-line topic and suggestion, parses
    to its verdict with the two fields stripped; a colon inside a field is
    kept, and lines after the third are ignored. *)
Theorem verdict_round_trip (related : bool) (topic ps extra : str) :
  single_line topic -> single_line ps ->
  parse_verdict (verdict_text related topic ps)
  = Returned (related, strip topic, strip ps)
  /\ parse_verdict (verdict_text related topic ps ++ NL ++ extra)
     = Returned (related, strip topic, strip ps).
Proof.
  intros Ht Hp.
  destruct (verdict_text_lines related topic ps extra Ht Hp) as [E1 E2].
  unfold parse_verdict. rewrite E1, E2. cbn [nth_error].
  assert (F1 : field_after_colon (lit "TOPIC:" ++ topic)
               = Returned (strip topic)) by reflexivity.
  assert (F2 : field_after_colon (lit "P/S:" ++ ps)
               = Returned (strip ps)) by reflexivity.
  rewrite F1, F2.
  split; destruct related; reflexivity.
Qed.

(** C2 (the code departs from the claim).  The parsing of [_judge_topic] is
    not total: on the answer "no / None / None", whose second line has no
    colon, [split(":", 1)[1]] is out of range; the parser raises [IndexError]
    and so does [_judge_topic]. *)
Theorem judge_parse_raises_without_colon :
  parse_verdict (lit "no
None
None") = Raised IndexError
  /\ fst (_judge_topic Scripted.world Scripted.openai_create
            (lit "Q: hello")
            (init Scripted.world [Scripted.says "no
None
None"]))
     = Raised IndexError.
Proof. split; reflexivity. Qed.

(** C3 (the code departs from the claim).  Three answered questions, then a
    fourth on which the judge fails: once because the text-generation service
    is down, once because its answer has a line without a colon.  Either way
    [chat] raises on the fourth call, the counter stays at the trigger period
    instead of returning to zero, and the question is left in the buffer
    without an answer. *)
Theorem counter_not_reset_when_judge_fails :
  let msgs := ["a"; "b"; "c"; "d"]%string in
  let ok := Scripted.says "ok" in
  let down := [ok; ok; ok; ok; Scripted.llm_down] in
  let garbled := [ok; ok; ok; ok; Scripted.says "no
None
None"] in
  (List.map fst (scripted_run down msgs)
   = [Returned (lit "ok"); Returned (lit "ok"); Returned (lit "ok");
      Raised (ProviderError 503)]
   /\ msg_cnt (scripted_final down msgs) = TRIGGER_QS
   /\ last (buffer (scripted_final down msgs)) [] = lit "Q: d")
  /\ (List.map fst (scripted_run garbled msgs)
      = [Returned (lit "ok"); Returned (lit "ok"); Returned (lit "ok");
         Raised IndexError]
      /\ msg_cnt (scripted_final garbled msgs) = TRIGGER_QS
      /\ last (buffer (scripted_final garbled msgs)) [] = lit "Q: d").
Proof. vm_compute. repeat split. Qed.

(** C4 (the code departs from the claim).  Twelve questions; the primary
    generation fails on the fourth and succeeds on all others.  The judge is
    asked on no call at all, not on the eighth and not on the twelfth, and the
    counter leaves the range below the trigger period for good: it reads
    4, 5, ..., 12 after the calls. *)
Theorem trigger_lost_after_failed_fourth_question :
  let msgs := repeat "q"%string 12 in
  let ok := Scripted.says "ok" in
  let script := [ok; ok; ok; Scripted.llm_down] ++ repeat ok 8 in
  List.map (fun rm => judge_consulted (trace (snd rm)))
    (scripted_run script msgs)
  = repeat false 12
  /\ List.map (fun rm => msg_cnt (snd rm)) (scripted_run script msgs)
     = [1; 2; 3; 4; 5; 6; 7; 8; 9; 10; 11; 12]
  /\ List.map (fun rm => returned (fst rm)) (scripted_run script msgs)
     = [true; true; true; false; true; true; true; true; true; true; true;
        true].
Proof. vm_compute. repeat split. Qed.

(** C1 (the code departs from the claim).  Fifty-one answered questions.  On
    the fifty-first the buffer is trimmed by one line, the oldest question:
    the line at index 0 is then the assistant's, the parity of roles is lost,
    and the context built for the next question reads that answer as the
    user's and the following question as the assistant's. *)
Theorem alternation_broken_after_eviction :
  let m := scripted_final (repeat (Scripted.says "ok") 63)
             (repeat "hi"%string 51) in
  scripted_all_returned (repeat (Scripted.says "ok") 63)
    (repeat "hi"%string 51) = true
  /\ nth 0 (buffer m) [] = lit "A: ok"
  /\ is_user_line (nth 0 (buffer m) []) = false
  /\ roles_by_parity (buffer m) = false
  /\ firstn 2 (context_pairs (buffer_after_question (lit "next") (buffer m)))
     = [(User, lit "ok"); (Assistant, lit "hi")].
Proof. vm_compute. repeat split. Qed.

(** C5 (the code departs from the claim).  Fifty-one answered questions leave
    101 lines in the buffer, one more than [MAX_BUFFER_SIZE]: the buffer is
    trimmed after the question is appended and not after the answer is. *)
Theorem buffer_exceeds_maximum_after_answer :
  let m := scripted_final (repeat (Scripted.says "ok") 63)
             (repeat "hi"%string 51) in
  List.length (buffer m) = 101%nat
  /\ (MAX_BUFFER_SIZE < List.length (buffer m))%nat
  /\ last (buffer m) [] = lit "A: ok".
Proof. vm_compute. repeat split; lia. Qed.

(** C8 (the code departs from the claim).  Three questions whose primary
    generation fails, then a fourth that is answered: the trigger fires on
    the fourth call with four lines in the buffer, all of them questions.
    The snapshot sent to the judge is those four lines, not seven, and holds
    no question/answer pair. *)
Lemma snapshot_of_four_questions :
  let down := Scripted.llm_down in
  let script := [down; down; down; Scripted.says "ok"; Scripted.says "no"] in
  let m3 := scripted_final script ["a"; "b"; "c"]%string in
  let b1 := buffer_after_question (lit "d") (buffer m3) in
  trace (snd (scripted_turn (lit "d") m3))
  = [LLMCall (main_request (lit "d") (buffer m3))
       (Returned [Some (lit "ok")]);
     LLMCall (judge_request b1) (Returned [Some (lit "no")])]
  /\ is_judge_request (judge_request b1) = true
  /\ messages (judge_request b1)
     = [(System, judge_sys_msg);
        (User, lit "Q: a
Q: b
Q: c
Q: d
RELATED:")]
  /\ last_items SNAPSHOT_LINES b1
     = [lit "Q: a"; lit "Q: b"; lit "Q: c"; lit "Q: d"]
  /\ List.length (last_items SNAPSHOT_LINES b1) <> 7%nat
  /\ existsb is_assistant_line (last_items SNAPSHOT_LINES b1) = false.
Proof.
  vm_compute. repeat split. discriminate.
Qed.

(** *** The theorems at concrete inputs *)

Lemma snapshot_is_trailing_window_witness :
  let ok := Scripted.says "ok" in
  let script := [ok; ok; ok; ok; Scripted.says "no"] in
  let m3 := scripted_final script ["a"; "b"; "c"]%string in
  let b1 := buffer_after_question (lit "d") (buffer m3) in
  scripted_all_returned script ["a"; "b"; "c"]%string = true
  /\ last_items SNAPSHOT_LINES b1
     = [lit "Q: a"; lit "A: ok"; lit "Q: b"; lit "A: ok"; lit "Q: c";
        lit "A: ok"; lit "Q: d"]
  /\ messages (judge_request b1)
     = [(System, judge_sys_msg);
        (User, join NL (last_items SNAPSHOT_LINES b1) ++ NL
               ++ lit "RELATED:")].
Proof.
  intros ok script m3 b1.
  split; [vm_compute; reflexivity|].
  split; [vm_compute; reflexivity|].
  refine (proj1 (snapshot_is_trailing_window Scripted.world
                   Scripted.openai_create Scripted.serp_get_dict
                   Scripted.api_key Scripted.format_other
                   (List.map lit ["a"; "b"; "c"]%string) (lit "d") script
                   (judge_request b1) (Returned [Some (lit "no")]) _ _)).
  - vm_compute. right. left. reflexivity.
  - vm_compute. reflexivity.
Defined.

Lemma chat_not_atomic_on_fatal_failure_witness :
  let m := {| buffer := [lit "Q: x"; lit "A: one"; lit "Q: y"; lit "A: two"];
              msg_cnt := 2;
              world := [Scripted.llm_down; Scripted.says "three";
                        Scripted.says "no"];
              trace := [] |} in
  Scripted.openai_create (main_request (lit "z") (buffer m)) (world m)
  = (Raised (ProviderError 503),
     [Scripted.says "three"; Scripted.says "no"])
  /\ fst (scripted_chat (lit "z") m) = Raised (ProviderError 503)
  /\ buffer (snd (scripted_chat (lit "z") m))
     = [lit "Q: x"; lit "A: one"; lit "Q: y"; lit "A: two"; lit "Q: z"]
  /\ msg_cnt (snd (scripted_chat (lit "z") m)) = 3
  /\ judge_consulted
       (trace (snd (scripted_turn (lit "w") (snd (scripted_chat (lit "z") m)))))
     = true.
Proof.
  intros m.
  assert (H : Scripted.openai_create (main_request (lit "z") (buffer m))
                (world m)
              = (Raised (ProviderError 503),
                 [Scripted.says "three"; Scripted.says "no"]))
    by reflexivity.
  split; [exact H|].
  destruct (chat_not_atomic_on_fatal_failure Scripted.world
              Scripted.openai_create Scripted.serp_get_dict
              Scripted.api_key Scripted.format_other
              (lit "z") m _ _ H) as (Hr & Hb & _ & Hc & Hnext).
  split; [exact Hr|]. split; [rewrite Hb; reflexivity|].
  split; [exact Hc|].
  apply (Hnext (lit "w") [Some (lit "three")] [Scripted.says "no"]);
    reflexivity.
Defined.

Lemma lookup_iff_coherent_and_not_none_witness :
  let m := {| buffer := [lit "Q: x"; lit "A: one"];
              msg_cnt := 3;
              world := [Scripted.says "two";
                        Scripted.says "RELATED: yes
TOPIC: shoes
P/S: NONE"];
              trace := [] |} in
  parse_verdict (lit "RELATED: yes
TOPIC: shoes
P/S: NONE") = Returned (true, lit "shoes", lit "NONE")
  /\ lookup_invoked (trace (snd (scripted_turn (lit "y") m))) = false.
Proof.
  intros m. split; [reflexivity|].
  refine (proj2 (proj2
    (lookup_iff_coherent_and_not_none Scripted.world
       Scripted.openai_create Scripted.serp_get_dict
       Scripted.api_key Scripted.format_other
       (lit "y") m
       (judge_request (buffer_after_question (lit "y") (buffer m)))
       [Some (lit "RELATED: yes
TOPIC: shoes
P/S: NONE")] true (lit "shoes") (lit "NONE") _ _ _)) _).
  - vm_compute. right. left. reflexivity.
  - vm_compute. reflexivity.
  - reflexivity.
  - cbn [In]. right. right. left. reflexivity.
Defined.

Lemma description_truncated_with_ellipsis_witness :
  let listing :=
    JObj [(lit "title", JStr (lit "TrailBlazer X"));
          (lit "product_link", JStr (lit "https://shop.example/tb"));
          (lit "description", JStr (lit "Light trail shoe"))] in
  let m := {| buffer := []; msg_cnt := 0;
              world := [Scripted.Serp
                          (Returned
                             (JObj [(lit "shopping_results",
                                     JList [listing])]))];
              trace := [] |} in
  let p := {| name := JStr (lit "TrailBlazer X");
              link := JStr (lit "https://shop.example/tb");
              desc := lit "Light trail shoe" ++ [ELLIPSIS] |} in
  fst (_shopping_search Scripted.world Scripted.serp_get_dict
         Scripted.api_key (lit "trail running shoes") m)
  = Returned (Some p)
  /\ (List.length (desc p) <= 161)%nat
  /\ endswith (desc p) [ELLIPSIS] = true.
Proof.
  intros listing m p.
  assert (H : fst (_shopping_search Scripted.world Scripted.serp_get_dict
                     Scripted.api_key (lit "trail running shoes") m)
              = Returned (Some p)) by reflexivity.
  split; [exact H|].
  destruct (description_truncated_with_ellipsis Scripted.world
              Scripted.serp_get_dict Scripted.api_key
              (lit "trail running shoes") m p H)
    as (results & item & src & _ & _ & _ & _ & _ & Hlen & Hend).
  split; [exact Hlen | exact Hend].
Defined.

Lemma shopping_search_never_raises_witness :
  let listing :=
    JObj [(lit "title", JStr (lit "TrailBlazer X"));
          (lit "product_link", JStr (lit "https://shop.example/tb"));
          (lit "description", JStr (lit "Light trail shoe"))] in
  let res := Returned (JObj [(lit "shopping_results", JList [listing])]) in
  let m := {| buffer := []; msg_cnt := 0;
              world := [Scripted.Serp res]; trace := [] |} in
  let p := {| name := JStr (lit "TrailBlazer X");
              link := JStr (lit "https://shop.example/tb");
              desc := lit "Light trail shoe" ++ [ELLIPSIS] |} in
  expected_response res = true
  /\ search_outcome res = Some p
  /\ well_formed_product p.
Proof.
  intros listing res m p.
  assert (He : expected_response res = true) by reflexivity.
  assert (Hs : search_outcome res = Some p) by reflexivity.
  split; [exact He|]. split; [exact Hs|].
  exact (proj2 (proj2 (proj2
           (shopping_search_never_raises Scripted.world
              Scripted.serp_get_dict Scripted.api_key
              (lit "trail running shoes") m)) He) p Hs).
Defined.

(** *** The further properties at concrete inputs *)

Lemma stream_chat_stripped_witness :
  let m := {| buffer := []; msg_cnt := 0;
              world := [Scripted.LLM
                          (Returned [Some (lit "  hello "); None; Some [];
                                     Some (lit " world
")])];
              trace := [] |} in
  fst (_stream_chat Scripted.world Scripted.openai_create
         [(User, lit "hi")] (7 # 10) 800 m)
  = Returned (lit "hello  world")
  /\ is_space 104%N = false /\ is_space 100%N = false.
Proof.
  intros m.
  assert (H : fst (_stream_chat Scripted.world Scripted.openai_create
                     [(User, lit "hi")] (7 # 10) 800 m)
              = Returned (lit "hello  world")) by reflexivity.
  split; [exact H|].
  destruct (stream_chat_stripped Scripted.world Scripted.openai_create
              [(User, lit "hi")] (7 # 10) 800 m _ H) as [Hfirst Hlast].
  split.
  - exact (Hfirst 104%N (lit "ello  world") eq_refl).
  - exact (Hlast 100%N (lit "hello  worl") eq_refl).
Defined.

Lemma reply_extends_primary_answer_witness :
  let listing :=
    JObj [(lit "title", JStr (lit "TrailBlazer X"));
          (lit "link", JStr (lit "https://shop.example/tb"));
          (lit "snippet", JStr (lit "Light trail shoe"))] in
  let p := {| name := JStr (lit "TrailBlazer X");
              link := JStr (lit "https://shop.example/tb");
              desc := lit "Light trail shoe" ++ [ELLIPSIS] |} in
  let m := {| buffer := [lit "Q: x"; lit "A: one"];
              msg_cnt := 3;
              world := [Scripted.says "Try these.";
                        Scripted.says "RELATED: yes
TOPIC: running shoes
P/S: trail running shoes";
                        Scripted.Serp
                          (Returned
                             (JObj [(lit "shopping_results",
                                     JList [listing])]))];
              trace := [] |} in
  let a := lit "Try these."
           ++ recommendation Scripted.format_other (lit "running shoes") p in
  fst (scripted_turn (lit "y") m) = Returned a
  /\ exists ch w1,
       Scripted.openai_create (main_request (lit "y") (buffer m)) (world m)
       = (Returned ch, w1).
Proof.
  intros listing p m a.
  assert (H : fst (scripted_turn (lit "y") m) = Returned a) by reflexivity.
  split; [exact H|].
  destruct (reply_extends_primary_answer Scripted.world
              Scripted.openai_create Scripted.serp_get_dict
              Scripted.api_key Scripted.format_other (lit "y") m a H)
    as (ch & w1 & Hmain & _).
  now exists ch, w1.
Defined.

Lemma buffer_length_when_returned_witness :
  scripted_all_returned (repeat (Scripted.says "ok") 63)
    (repeat "hi"%string 51) = true
  /\ List.length
       (buffer (scripted_final (repeat (Scripted.says "ok") 63)
                  (repeat "hi"%string 51)))
     = 101%nat.
Proof.
  assert (H : scripted_all_returned (repeat (Scripted.says "ok") 63)
                (repeat "hi"%string 51) = true) by (vm_compute; reflexivity).
  split; [exact H|].
  exact (buffer_length_when_returned Scripted.world Scripted.openai_create
           Scripted.serp_get_dict Scripted.api_key Scripted.format_other
           (List.map lit (repeat "hi"%string 51))
           (repeat (Scripted.says "ok") 63) H).
Defined.

Lemma trigger_dead_once_counter_passes_witness :
  let m := {| buffer := [lit "Q: d"]; msg_cnt := 4;
              world := repeat (Scripted.says "ok") 4; trace := [] |} in
  TRIGGER_QS <= msg_cnt m
  /\ msg_cnt (final Scripted.world Scripted.openai_create
                Scripted.serp_get_dict Scripted.api_key
                Scripted.format_other
                (List.map lit ["e"; "f"; "g"; "h"]%string) m)
     = 8.
Proof.
  intros m.
  assert (H : TRIGGER_QS <= msg_cnt m)
    by (unfold m, TRIGGER_QS; cbn [msg_cnt]; lia).
  split; [exact H|].
  exact (proj1 (trigger_dead_once_counter_passes Scripted.world
                  Scripted.openai_create Scripted.serp_get_dict
                  Scripted.api_key Scripted.format_other
                  (List.map lit ["e"; "f"; "g"; "h"]%string) m H)).
Defined.

Lemma history_sent_in_full_witness :
  let script := [Scripted.says "one"; Scripted.says "two"] in
  scripted_all_returned script ["a"; "b"]%string = true
  /\ messages (main_request (lit "c")
                 (buffer (scripted_final script ["a"; "b"]%string)))
     = [(System, assistant_sys_msg);
        (User, lit "a"); (Assistant, lit "one");
        (User, lit "b"); (Assistant, lit "two");
        (User, lit "c")].
Proof.
  intros script.
  assert (H : scripted_all_returned script ["a"; "b"]%string = true)
    by reflexivity.
  split; [exact H|].
  exact (proj2 (proj2 (proj2
           (history_sent_in_full Scripted.world Scripted.openai_create
              Scripted.serp_get_dict Scripted.api_key Scripted.format_other
              (List.map lit ["a"; "b"]%string) script (lit "c") H
              ltac:(cbn [List.map List.length]; lia))))).
Defined.

Lemma only_first_entry_considered_witness :
  let second := JObj [(lit "link", JStr (lit "https://shop.example/2"))] in
  let f := [(lit "organic", JList []);
            (lit "shopping_results", JList [JObj []; second])] in
  lookup (lit "shopping_results") f = Some (JList [JObj []; second])
  /\ search_outcome (Returned (JObj f)) = None.
Proof.
  intros second f.
  assert (H : lookup (lit "shopping_results") f
              = Some (JList [JObj []; second])) by reflexivity.
  split; [exact H|].
  exact (eq_trans (only_first_entry_considered f (JObj []) [second] H)
           eq_refl).
Defined.

Lemma record_fields_of_first_entry_witness :
  let fi := [(lit "link", JStr []);
             (lit "product_link", JStr (lit "https://shop.example/tb"));
             (lit "description", JStr (lit "Light trail shoe"))] in
  let f := [(lit "shopping_results", JList [JObj fi])] in
  let p := {| name := JStr [];
              link := JStr (lit "https://shop.example/tb");
              desc := lit "Light trail shoe" ++ [ELLIPSIS] |} in
  search_outcome (Returned (JObj f)) = Some p
  /\ lookup (lit "product_link") fi = Some (link p)
  /\ name p = JStr [].
Proof.
  intros fi f p.
  assert (H : search_outcome (Returned (JObj f)) = Some p) by reflexivity.
  split; [exact H|].
  destruct (record_fields_of_first_entry f fi [] p eq_refl H)
    as (_ & Hfallback & Hname).
  split; [|exact Hname].
  apply Hfallback. right. exists (JStr []). split; reflexivity.
Defined.

Lemma main_runs_the_conversation_witness :
  let events := [Typed (lit "  hello "); Typed []; Typed (lit " QuIt ");
                 Typed (lit "never read")] in
  let script := [Scripted.says "hi"; Scripted.says "?"] in
  session_questions events = [lit "hello"; []]
  /\ scripted_all_returned script ["hello"; ""]%string = true
  /\ main Scripted.world Scripted.openai_create Scripted.serp_get_dict
       Scripted.api_key Scripted.format_other events script
     = (Ended, scripted_final script ["hello"; ""]%string,
        [ai_line (lit "hi"); ai_line (lit "?")]).
Proof.
  intros events script.
  split; [reflexivity|].
  assert (H : scripted_all_returned script ["hello"; ""]%string = true)
    by reflexivity.
  split; [exact H|].
  exact (proj1 (proj1 (main_runs_the_conversation Scripted.world
                         Scripted.openai_create Scripted.serp_get_dict
                         Scripted.api_key Scripted.format_other
                         events script) H)).
Defined.

Lemma verdict_round_trip_witness :
  single_line (lit " running: trail") /\ single_line (lit " trail shoes ")
  /\ parse_verdict (lit "RELATED: yes
TOPIC: running: trail
P/S: trail shoes 
(sponsored)")
     = Returned (true, lit "running: trail", lit "trail shoes").
Proof.
  assert (Ht : single_line (lit " running: trail"))
    by (apply single_line_literal; reflexivity).
  assert (Hp : single_line (lit " trail shoes "))
    by (apply single_line_literal; reflexivity).
  split; [exact Ht|]. split; [exact Hp|].
  exact (proj2 (verdict_round_trip true (lit " running: trail")
                  (lit " trail shoes ") (lit "(sponsored)") Ht Hp)).
Defined.

Lemma trigger_only_on_multiples_witness :
  let script := repeat (Scripted.says "ok") 5 in
  let m3 := scripted_final script ["a"; "b"; "c"]%string in
  judge_consulted (trace (snd (scripted_turn (lit "d") m3))) = true
  /\ Z.of_nat (3 + 1) mod TRIGGER_QS = 0.
Proof.
  intros script m3.
  assert (H : judge_consulted (trace (snd (scripted_turn (lit "d") m3)))
              = true) by (vm_compute; reflexivity).
  split; [exact H|].
  exact (trigger_only_on_multiples Scripted.world Scripted.openai_create
           Scripted.serp_get_dict Scripted.api_key Scripted.format_other
           (List.map lit ["a"; "b"; "c"]%string) (lit "d") script H).
Defined.

Lemma trigger_on_every_multiple_when_returned_witness :
  let script := repeat (Scripted.says "ok") 10 in
  let pre := repeat "q"%string 7 in
  scripted_all_returned script (pre ++ ["last"%string]) = true
  /\ judge_consulted
       (trace (snd (scripted_turn (lit "last") (scripted_final script pre))))
     = true.
Proof.
  intros script pre.
  assert (H : all_returned Scripted.world Scripted.openai_create
                Scripted.serp_get_dict Scripted.api_key
                Scripted.format_other
                (List.map lit pre ++ [lit "last"])
                (init Scripted.world script) = true)
    by (vm_compute; reflexivity).
  split; [exact H|].
  apply (proj1 (trigger_on_every_multiple_when_returned Scripted.world
                  Scripted.openai_create Scripted.serp_get_dict
                  Scripted.api_key Scripted.format_other
                  (List.map lit pre) (lit "last") script H)).
  reflexivity.
Defined.

Example format_other_renders :
  Scripted.format_other JNull = lit "None"
  /\ Scripted.format_other (JBool true) = lit "True"
  /\ Scripted.format_other (JNum (5 # 1)) = lit "5"
  /\ Scripted.format_other (JNum (-12 # 1)) = lit "-12"
  /\ Scripted.format_other (JNum 0) = lit "0".
Proof. vm_compute. repeat split. Qed.
